(** * Google-Form-Translator: column classifier, translator and chart builder

    A shallow embedding of the three components of the repository that carry
    logic: [CSVAnalyzer] (src/utils/csv_analyzer.py), [TextTranslator]
    (src/translator.py) and [DataVisualizer.create_correlation_heatmap]
    (src/visualizer.py), followed by the properties proved about them.

    Conventions.
    - A Python [str] is a [string] whose characters are read as code points
      below 256, so [String.length] is Python's [len].
    - A table cell is a [value]: the scalars pandas hands out when a column is
      iterated.
    - Code that talks to the outside (the translation client, the Streamlit
      widgets, [time.sleep]) runs in the monad [M]: a state over the [world]
      together with an exception result. *)

From Stdlib Require Import ZArith Ascii String List Bool Lia.
From stdpp Require Import base list strings gmap pretty.

(** ** Python strings *)

Module Py.

Definition code (c : ascii) : N := N_of_ascii c.

(** [str.isspace] on one character, for code points below 256. *)
Definition isspace (c : ascii) : bool :=
  let n := code c in
  ((9 <=? n) && (n <=? 13) || (28 <=? n) && (n <=? 32)
   || (n =? 133) || (n =? 160))%N.

Fixpoint lstrip (s : string) : string :=
  match s with
  | EmptyString => EmptyString
  | String c s' => if isspace c then lstrip s' else s
  end.

(** Removes the trailing whitespace: a character is dropped when it is a
    space and everything after it was dropped. *)
Fixpoint rstrip (s : string) : string :=
  match s with
  | EmptyString => EmptyString
  | String c s' =>
      match rstrip s' with
      | EmptyString => if isspace c then EmptyString else String c EmptyString
      | r => String c r
      end
  end.

(** [s.strip()] *)
Definition strip (s : string) : string := rstrip (lstrip s).

(** [str.lower] on one character: A-Z and the upper-case letters of the
    Latin-1 supplement (0xC0-0xDE except the multiplication sign 0xD7). *)
Definition lower_char (c : ascii) : ascii :=
  let n := code c in
  if ((65 <=? n) && (n <=? 90)
      || (192 <=? n) && (n <=? 222) && negb (n =? 215))%N
  then ascii_of_N (n + 32) else c.

Fixpoint lower (s : string) : string :=
  match s with
  | EmptyString => EmptyString
  | String c s' => String (lower_char c) (lower s')
  end.

(** [needle in hay] for two strings. *)
Fixpoint contains (needle hay : string) : bool :=
  String.prefix needle hay
  || match hay with
     | EmptyString => false
     | String _ hay' => contains needle hay'
     end.

(** [chr(n)] as a one-character string. *)
Definition chr (n : N) : string := String (ascii_of_N n) EmptyString.

(** [s[:n]] *)
Definition slice_to (n : nat) (s : string) : string := String.substring 0 n s.

(** ["sep".join(l)] *)
Fixpoint join (sep : string) (l : list string) : string :=
  match l with
  | [] => ""
  | [x] => x
  | x :: l' => x +:+ sep +:+ join sep l'
  end.

(** ["c" * n] *)
Fixpoint repeat_str (c : string) (n : nat) : string :=
  match n with
  | O => ""
  | S n' => c +:+ repeat_str c n'
  end.

(** A finite float as the code observes it: whether it is zero (its
    truthiness) and what [str] prints for it. *)
Record pyfloat := { fl_zero : bool; fl_repr : string }.

(** The scalars found in a cell. [VNone], [VNaN] and [VNaT] are the absent
    values; a [VTimestamp] is observed through its [str], the ISO text
    [YYYY-MM-DD HH:MM:SS]. *)
Inductive value :=
| VNone
| VNaN
| VNaT
| VBool (b : bool)
| VInt (z : Z)
| VFloat (f : pyfloat)
| VTimestamp (iso : string)
| VStr (s : string).

(** [bool(v)], so that [not v] is [negb (truthy v)]. *)
Definition truthy (v : value) : bool :=
  match v with
  | VNone => false
  | VNaN => true
  | VNaT => true
  | VBool b => b
  | VInt z => negb (z =? 0)%Z
  | VFloat f => negb (fl_zero f)
  | VTimestamp _ => true
  | VStr s => negb (String.eqb s "")
  end.

(** [pd.isna(v)] on a scalar. *)
Definition isna (v : value) : bool :=
  match v with
  | VNone | VNaN | VNaT => true
  | _ => false
  end.

(** [str(v)] *)
Definition str (v : value) : string :=
  match v with
  | VNone => "None"
  | VNaN => "nan"
  | VNaT => "NaT"
  | VBool true => "True"
  | VBool false => "False"
  | VInt z => pretty z
  | VFloat f => fl_repr f
  | VTimestamp iso => iso
  | VStr s => s
  end.

(** [repr(s)] of a string: single quotes unless the text has a single and no
    double quote; backslash, the chosen quote, tab, newline and carriage
    return are escaped, other non-printable characters are written as a
    backslash, [x] and two hexadecimal digits. *)
Definition hex_digit (n : N) : string :=
  String.substring (N.to_nat n) 1 "0123456789abcdef".

Definition isprintable (c : ascii) : bool :=
  let n := code c in
  ((32 <=? n) && (n <=? 126) || (161 <=? n) && negb (n =? 173))%N.

Definition backslash : string := chr 92.

Definition repr_char (quote : ascii) (c : ascii) : string :=
  let n := code c in
  if (n =? 92)%N then backslash +:+ backslash
  else if Ascii.eqb c quote then backslash +:+ String c EmptyString
  else if (n =? 9)%N then backslash +:+ "t"
  else if (n =? 10)%N then backslash +:+ "n"
  else if (n =? 13)%N then backslash +:+ "r"
  else if isprintable c then String c EmptyString
  else backslash +:+ "x" +:+ hex_digit (n / 16) +:+ hex_digit (n mod 16).

Fixpoint repr_chars (quote : ascii) (s : string) : string :=
  match s with
  | EmptyString => EmptyString
  | String c s' => repr_char quote c +:+ repr_chars quote s'
  end.

Definition repr_str (s : string) : string :=
  let quote :=
    if contains "'" s && negb (contains (chr 34) s) then ascii_of_N 34
    else "'"%char in
  String quote (repr_chars quote s) +:+ String quote EmptyString.

(** [repr(v)], what an f-string prints for [v] inside a list. *)
Definition repr (v : value) : string :=
  match v with
  | VStr s => repr_str s
  | VTimestamp iso => "Timestamp('" +:+ iso +:+ "')"
  | _ => str v
  end.

(** [str(l)] of a list. *)
Definition str_list (l : list value) : string :=
  "[" +:+ join ", " (List.map repr l) +:+ "]".

(** [s.endswith(suffix)] *)
Fixpoint endswith (suffix s : string) : bool :=
  String.eqb suffix s
  || match s with
     | EmptyString => false
     | String _ s' => endswith suffix s'
     end.

(** [range(0, stop, step)] for a step other than zero: empty when the step
    is negative. *)
Definition range_from_zero (stop : nat) (step : Z) : list nat :=
  if (step <=? 0)%Z then []
  else
    let step := Z.to_nat step in
    List.map (fun k => (k * step)%nat) (seq 0 ((stop + step - 1) / step)).

End Py.

(** ** Regular expressions: the fragment [re.search] is used with *)

Module Re.
Import Py.

(** The two character sets of the date patterns: a decimal digit, and a
    dash or a slash. *)
Inductive charset := Digit | DashSlash.

Definition in_charset (k : charset) (c : ascii) : bool :=
  match k with
  | Digit => ((48 <=? code c) && (code c <=? 57))%N
  | DashSlash => Ascii.eqb c "-"%char || Ascii.eqb c "/"%char
  end.

(** One item [k{lo,hi}]; a pattern is a sequence of items. *)
Record item := Item { set_of : charset; lo : nat; hi : nat }.

Definition pattern := list item.

(** Consumes exactly [n] characters of the set at the start of [s]. *)
Fixpoint eat (k : charset) (n : nat) (s : string) : option string :=
  match n with
  | O => Some s
  | S n' =>
      match s with
      | String c s' => if in_charset k c then eat k n' s' else None
      | EmptyString => None
      end
  end.

(** Does the pattern match at the start of [s]: every repetition count of
    the first item is tried, the longest first. *)
Fixpoint match_here (p : pattern) (s : string) : bool :=
  match p with
  | [] => true
  | it :: p' =>
      existsb (fun n => match eat (set_of it) n s with
                        | Some rest => match_here p' rest
                        | None => false
                        end)
              (rev (seq (lo it) (S (hi it) - lo it)))
  end.

(** [re.search(p, s)] as a truth value: a match at some position. *)
Fixpoint search (p : pattern) (s : string) : bool :=
  match_here p s
  || match s with
     | EmptyString => false
     | String _ s' => search p s'
     end.

(** The item [wide] allows every repetition count the item [narrow]
    allows, of the same set. *)
Definition widens (narrow wide : item) : Prop :=
  set_of wide = set_of narrow /\ (lo wide <= lo narrow)%nat
  /\ (hi narrow <= hi wide)%nat.

End Re.

(** ** pandas tables *)

Module Pandas.
Import Py.

(** Storage types of a column. *)
Inductive dtype := DInt64 | DFloat64 | DBool | DDatetime64 | DObject.

(** [pd.api.types.is_numeric_dtype]: integers, floats and booleans. *)
Definition is_numeric_dtype (d : dtype) : bool :=
  match d with
  | DInt64 | DFloat64 | DBool => true
  | _ => false
  end.

(** [pd.api.types.is_datetime64_any_dtype] *)
Definition is_datetime64_any_dtype (d : dtype) : bool :=
  match d with
  | DDatetime64 => true
  | _ => false
  end.

(** Membership in [np.number], the test of
    [select_dtypes(include=[np.number])]: booleans are left out. *)
Definition is_np_number (d : dtype) : bool :=
  match d with
  | DInt64 | DFloat64 => true
  | _ => false
  end.

Record Series := { dtype_of : dtype; values : list value }.

(** [series.dropna()] and [series.notna()] on the cells. *)
Definition dropna (l : list value) : list value :=
  List.filter (fun v => negb (isna v)) l.

Definition notna (l : list value) : list bool :=
  List.map (fun v => negb (isna v)) l.

(** A table: the length of its index and its named columns, in order. *)
Record DataFrame := { nrows : nat; cols : list (string * Series) }.

Definition column_names (df : DataFrame) : list string :=
  List.map fst (cols df).

Fixpoint assoc_get (name : string) (l : list (string * Series)) : option Series :=
  match l with
  | [] => None
  | (k, s) :: l' => if String.eqb k name then Some s else assoc_get name l'
  end.

Fixpoint assoc_set (name : string) (s : Series) (l : list (string * Series))
  : list (string * Series) :=
  match l with
  | [] => [(name, s)]
  | (k, s0) :: l' =>
      if String.eqb k name then (k, s) :: l' else (k, s0) :: assoc_set name s l'
  end.

(** [df[name]], [None] standing for the [KeyError]. *)
Definition df_get (name : string) (df : DataFrame) : option Series :=
  assoc_get name (cols df).

(** [name in df.columns] *)
Definition has_column (name : string) (df : DataFrame) : bool :=
  match df_get name df with Some _ => true | None => false end.

(** [df[name] = s]: the column is replaced in place, or appended as the last
    column when the name is new. *)
Definition df_set (name : string) (s : Series) (df : DataFrame) : DataFrame :=
  {| nrows := nrows df; cols := assoc_set name s (cols df) |}.

(** [column.loc[mask] = new]: the cells selected by the mask take the new
    values in order. *)
Fixpoint loc_assign (mask : list bool) (new old : list value) : list value :=
  match mask, old with
  | true :: mask', _ :: old' =>
      match new with
      | n :: new' => n :: loc_assign mask' new' old'
      | [] => old
      end
  | false :: mask', o :: old' => o :: loc_assign mask' new old'
  | _, _ => old
  end.

(** Which cells a storage type holds without conversion. *)
Definition can_hold (d : dtype) (v : value) : bool :=
  match d, v with
  | DObject, _ => true
  | DInt64, VInt _ => true
  | DFloat64, (VFloat _ | VNaN) => true
  | DBool, VBool _ => true
  | DDatetime64, (VTimestamp _ | VNaT) => true
  | _, _ => false
  end.

(** The storage type after an assignment, as pandas 2 settles it: kept when
    every new cell fits, widened to [object] otherwise. *)
Definition upcast (d : dtype) (new : list value) : dtype :=
  if forallb (can_hold d) new then d else DObject.

(** A timestamp prints as [YYYY-MM-DD] followed by the time of day. *)
Definition iso_date : Re.pattern :=
  [Re.Item Re.Digit 4 4; Re.Item Re.DashSlash 1 1; Re.Item Re.Digit 2 2;
   Re.Item Re.DashSlash 1 1; Re.Item Re.Digit 2 2].

Definition well_formed_cell (v : value) : bool :=
  match v with
  | VTimestamp iso => Re.match_here iso_date iso
  | _ => true
  end.

(** A column as pandas builds it: every cell is one its storage type
    holds. *)
Definition well_formed_series (s : Series) : bool :=
  forallb (fun v => can_hold (dtype_of s) v && well_formed_cell v) (values s).

(** A table as pandas builds it: distinct column labels, and every column
    as long as the index. *)
Definition well_formed (df : DataFrame) : Prop :=
  NoDup (column_names df)
  /\ Forall (fun c => length (values (snd c)) = nrows df) (cols df).

(** [df.select_dtypes(include=[np.number])] *)
Definition select_dtypes_number (df : DataFrame) : DataFrame :=
  {| nrows := nrows df;
     cols := List.filter (fun c => is_np_number (dtype_of (snd c))) (cols df) |}.

(** [df.empty]: one of the two axes has length zero. *)
Definition empty (df : DataFrame) : bool :=
  (nrows df =? 0)%nat || (length (cols df) =? 0)%nat.

(** [df.loc[mask, column] = new]. A column that is missing is first created
    with absent cells. *)
Definition loc_set (mask : list bool) (column : string) (new : list value)
           (df : DataFrame) : DataFrame :=
  match df_get column df with
  | Some cur =>
      df_set column {| dtype_of := upcast (dtype_of cur) new;
                       values := loc_assign mask new (values cur) |} df
  | None =>
      df_set column {| dtype_of := DObject;
                       values := loc_assign mask new (repeat VNaN (nrows df)) |} df
  end.

End Pandas.

(** ** Effects: the translation client, the widgets and the session *)

Module Effects.
Import Py.

(** What the run shows or does besides computing. *)
Inductive event :=
| EvSleep (ms : nat)             (* time.sleep, in milliseconds *)
| EvWarning (msg : string)       (* st.warning *)
| EvStatus (msg : string)        (* status_text.text *)
| EvProgress (done total : nat)  (* progress_bar.progress(done / total) *)
| EvEmpty.                       (* widget.empty() *)

(** The external translation client: [translate(text, dest, src)] either
    raises (the text of the exception) or returns a result, [Some t] when
    the result is truthy and has the attribute [text], [None] otherwise. The
    client may change state from call to call. *)
Class TranslationService (S : Type) :=
  svc_translate : S -> string -> string -> string -> (string + option string) * S.

(** [translator] is [self.translator], [google_available] the module flag
    [GOOGLE_TRANSLATE_AVAILABLE], [events] what was shown so far (oldest
    first) and [session_column_translations] the attribute
    [st.session_state.column_translations], [None] when it is not set. *)
Record world (S : Type) := World {
  translator : option S;
  google_available : bool;
  events : list event;
  session_column_translations : option (gmap string value)
}.
Arguments World {S}.
Arguments translator {S}.
Arguments google_available {S}.
Arguments events {S}.
Arguments session_column_translations {S}.

(** A computation: from a world to a raised exception or a result, and the
    world it leaves. *)
Definition M (S A : Type) : Type := world S -> (string + A) * world S.

Definition ret {S A} (a : A) : M S A := fun w => (inr a, w).

Definition bind {S A B} (m : M S A) (k : A -> M S B) : M S B :=
  fun w =>
    match m w with
    | (inl e, w') => (inl e, w')
    | (inr a, w') => k a w'
    end.

Definition raise {S A} (e : string) : M S A := fun w => (inl e, w).

(** [try: m except Exception as e: h e] *)
Definition try_except {S A} (m : M S A) (h : string -> M S A) : M S A :=
  fun w =>
    match m w with
    | (inl e, w') => h e w'
    | (inr a, w') => (inr a, w')
    end.

Definition emit {S} (e : event) : M S unit :=
  fun w => (inr tt, World (translator w) (google_available w)
                          (events w ++ [e]) (session_column_translations w)).

Definition get_translator {S} : M S (option S) := fun w => (inr (translator w), w).

Definition get_available {S} : M S bool := fun w => (inr (google_available w), w).

(** [self.translator.translate(text, dest=dest, src=src)] *)
Definition call_translate {S} `{TranslationService S} (text dest src : string)
  : M S (option string) :=
  fun w =>
    match translator w with
    | None => (inl "AttributeError: 'NoneType' object has no attribute 'translate'", w)
    | Some s =>
        let '(r, s') := svc_translate s text dest src in
        (r, World (Some s') (google_available w) (events w)
                  (session_column_translations w))
    end.

(** The closing lines of [translate_dataframe] on the session:
    [update] when the attribute exists, a fresh assignment otherwise. *)
Definition store_column_translations {S} (ct : gmap string value) : M S unit :=
  fun w =>
    let merged :=
      match session_column_translations w with
      | Some old => ct ∪ old
      | None => ct
      end in
    (inr tt, World (translator w) (google_available w) (events w) (Some merged)).

Global Instance M_ret {S} : MRet (M S) := fun A a => ret a.
Global Instance M_bind {S} : MBind (M S) := fun A B k m => bind m k.

(** [for x in l: acc = body(acc, x)] *)
Fixpoint foldM {S A B} (body : A -> B -> M S A) (acc : A) (l : list B) : M S A :=
  match l with
  | [] => ret acc
  | x :: l' => acc' ← body acc x; foldM body acc' l'
  end.

(** Did the run end without an exception. *)
Definition returns {S A} (r : (string + A) * world S) : Prop :=
  exists a, fst r = inr a.

(** The other method of the client the code uses: [detect(text)] raises or
    returns a result, [Some lang] when the result is truthy and has the
    attribute [lang]. *)
Class DetectionService (S : Type) :=
  svc_detect : S -> string -> (string + option string) * S.

(** [self.translator.detect(text)] *)
Definition call_detect {S} `{DetectionService S} (text : string)
  : M S (option string) :=
  fun w =>
    match translator w with
    | None => (inl "AttributeError: 'NoneType' object has no attribute 'detect'", w)
    | Some s =>
        let '(r, s') := svc_detect s text in
        (r, World (Some s') (google_available w) (events w)
                  (session_column_translations w))
    end.

End Effects.

(** ** TextTranslator (src/translator.py) *)

Module Translator.
Import Py Pandas Effects.

Section WithService.
Context {S : Type} `{TranslationService S}.

(** Lines 43-61 of [translate_text]: the [try] block and its handler. *)
Definition translation_path (text_str target_language source_language : string)
  : M S value :=
  try_except
    (tr ← get_translator;
     avail ← get_available;
     match tr, avail with
     | Some _, true =>
         emit (EvSleep 100);;
         result ← call_translate text_str target_language source_language;
         mret (VStr match result with
                   | Some t => t
                   | None => text_str
                   end)
     | _, _ => mret (VStr ("[Translation unavailable] " +:+ text_str))
     end)
    (fun e =>
       emit (EvWarning ("Translation failed for text '" +:+ slice_to 50 text_str
                        +:+ "...': " +:+ e));;
       mret (VStr text_str)).

(** [translate_text(text, target_language, source_language)] *)
Definition translate_text (text : value) (target_language source_language : string)
  : M S value :=
  if negb (truthy text) || isna text then mret text
  else
    let text_str := strip (str text) in
    if String.eqb text_str "" then mret text
    else if (String.length text_str <? 3)%nat then mret text
    else translation_path text_str target_language source_language.

(** The test of lines 89-95: does the column label look like a question. *)
Definition is_question_label (column : string) : bool :=
  let col_lower := lower column in
  contains "?" column || contains (chr 191) column
  || contains "texto" col_lower || contains "text" col_lower
  || contains "translated" col_lower || contains "mango" col_lower
  || contains ("est" +:+ chr 225 +:+ "s") col_lower
  || contains "estas" col_lower
  || contains "algo" col_lower || contains "favor" col_lower
  || contains "por favor" col_lower || contains "como" col_lower
  || contains ("c" +:+ chr 243 +:+ "mo") col_lower.

(** Line 71: the non-null cells of the selected columns that exist. *)
Definition total_cells (df : DataFrame) (columns : list string) : nat :=
  list_sum
    (List.map (fun col => match df_get col df with
                          | Some s => length (dropna (values s))
                          | None => 0
                          end)
              (List.filter (fun col => has_column col df) columns)).

(** Lines 105-116: the loop over the non-null cells of one column. It
    returns the translated cells and the running count of processed
    cells; the progress bar moves every fifth cell. *)
Fixpoint translate_values (total : nat) (target_language : string)
         (non_null_values : list value) (processed_cells : nat)
  : M S (list value * nat) :=
  match non_null_values with
  | [] => mret ([], processed_cells)
  | value :: rest =>
      translated ←
        (if isna value || String.eqb (strip (str value)) ""
         then mret value
         else translate_text value target_language "auto");
      let processed_cells := Datatypes.S processed_cells in
      (if (processed_cells mod 5 =? 0)%nat
       then emit (EvProgress (processed_cells `min` total) total)
       else mret tt);;
      '(translated_values, processed_cells) ←
        translate_values total target_language rest processed_cells;
      mret (translated :: translated_values, processed_cells)
  end.

(** Lines 107-111 on their own: what one turn of that loop appends for the
    cell it is at. *)
Definition translate_cell (cell : value) (target_language : string) : M S value :=
  if isna cell || String.eqb (strip (str cell)) "" then mret cell
  else translate_text cell target_language "auto".

(** The variables the loop over the columns carries. *)
Record loop_state := LoopState {
  translated_df : DataFrame;
  processed : nat;
  column_translations : gmap string value
}.

(** Lines 118-124: the translated cells are written over the non-null
    cells of the column, and the source column is kept under the derived
    label unless the table has a column of that label. *)
Definition write_back (column : string) (series : Series)
           (translated_values : list value) (translated_df : DataFrame)
  : DataFrame :=
  let non_null_mask := notna (values series) in
  let tdf := loc_set non_null_mask column translated_values translated_df in
  let original_column_name := column +:+ "_original" in
  if has_column original_column_name tdf then tdf
  else df_set original_column_name series tdf.

(** Lines 81-124: the body of the loop over the selected columns. *)
Definition translate_column (df : DataFrame) (total : nat)
           (target_language : string) (st : loop_state) (column : string)
  : M S loop_state :=
  match df_get column df with
  | None =>
      emit (EvWarning ("Column '" +:+ column +:+ "' not found in DataFrame"));;
      mret st
  | Some series =>
      emit (EvStatus ("Translating column: " +:+ column));;
      translations ←
        (if is_question_label column
         then translated_column_name ←
                translate_text (VStr column) target_language "auto";
              mret (<[column := translated_column_name]> (column_translations st))
         else mret (column_translations st));
      let non_null_values := dropna (values series) in
      '(translated_values, processed_cells) ←
        translate_values total target_language non_null_values (processed st);
      mret (LoopState (write_back column series translated_values (translated_df st))
                      processed_cells translations)
  end.

(** [translate_dataframe(df, columns, target_language)] *)
Definition translate_dataframe (df : DataFrame) (columns : list string)
           (target_language : string) : M S DataFrame :=
  match columns with
  | [] => mret df
  | _ =>
      let total := total_cells df columns in
      emit (EvProgress 0 1);;
      st ← foldM (translate_column df total target_language)
                 (LoopState df 0 ∅) columns;
      store_column_translations (column_translations st);;
      emit (EvProgress 1 1);;
      emit (EvStatus "Translation completed!");;
      emit (EvSleep 1000);;
      emit EvEmpty;;
      emit EvEmpty;;
      mret (translated_df st)
  end.

End WithService.
(** *** The remaining methods of [TextTranslator] *)

Section WithClient.
Context {S : Type} `{TranslationService S} `{DetectionService S}.

(** [is_translation_available()], a reading of the world. *)
Definition is_translation_available (w : world S) : bool :=
  match translator w with
  | Some _ => google_available w
  | None => false
  end.

(** [detect_language(text)] *)
Definition detect_language (text : value) : M S string :=
  if negb (truthy text) || isna text then mret "unknown"
  else
    let text_str := strip (str text) in
    if String.eqb text_str "" then mret "unknown"
    else
      try_except
        (tr ← get_translator;
         avail ← get_available;
         match tr, avail with
         | Some _, true =>
             detected ← call_detect text_str;
             mret match detected with
                  | Some lang => lang
                  | None => "unknown"
                  end
         | _, _ => mret "unknown"
         end)
        (fun _ => mret "unknown").

(** Lines 191-196: the loop over one batch. *)
Fixpoint translate_batch (batch : list value) (target_language : string)
  : M S (list value) :=
  match batch with
  | [] => mret []
  | text :: rest =>
      translated ← translate_text text target_language "auto";
      emit (EvSleep 100);;
      batch_results ← translate_batch rest target_language;
      mret (translated :: batch_results)
  end.

(** [batch_translate(texts, target_language, batch_size)]; [range] raises
    on a step of zero. *)
Definition batch_translate (texts : list value) (target_language : string)
           (batch_size : Z) : M S (list value) :=
  match texts with
  | [] => mret []
  | _ =>
      if (batch_size =? 0)%Z
      then raise "ValueError: range() arg 3 must not be zero"
      else
        foldM (fun translated_texts i =>
                 batch_results ←
                   translate_batch (take (Z.to_nat batch_size) (drop i texts))
                                   target_language;
                 mret (translated_texts ++ batch_results))
              [] (range_from_zero (length texts) batch_size)
  end.

(** Does [translate_text] hand the value back before its [try] block: the
    value is falsy or absent, or shorter than three characters once
    stringified and trimmed. *)
Definition passes_through (text : value) : bool :=
  negb (truthy text) || isna text
  || (String.length (strip (str text)) <? 3)%nat.

(** What a cell reads after a run without the service: itself when it passes
    through, its trimmed text behind the marker otherwise. *)
Definition marked (text : value) : value :=
  if passes_through text then text
  else VStr ("[Translation unavailable] " +:+ strip (str text)).

(** A progress report that can be displayed: a fraction of a positive total,
    at most one. *)
Definition displayable (e : event) : Prop :=
  match e with
  | EvProgress done total => (0 < total /\ done <= total)%nat
  | _ => True
  end.

(** How a run changes the world: the module flag and the session keep their
    values, the client is left alone when the service is unavailable, and
    events are only added, each of them displayable. *)
Definition evolves (w w' : world S) : Prop :=
  google_available w' = google_available w
  /\ session_column_translations w' = session_column_translations w
  /\ (is_translation_available w = false -> translator w' = translator w)
  /\ exists new, events w' = events w ++ new /\ Forall displayable new.

(** What is known of the cell [t] that a run started in the world [w]
    returns for the cell [v]: [v] itself when [v] passes through, and the
    marked cell when the service is unavailable. *)
Definition translated_cell (w : world S) (v t : value) : Prop :=
  (passes_through v = true -> t = v)
  /\ (is_translation_available w = false -> t = marked v).

(** What one turn of the loop over the selected columns does to the loop
    variables, in a run started in the world [w]. *)
Definition column_turn (df : DataFrame) (w : world S) (column : string)
           (st st' : loop_state) : Prop :=
  match df_get column df with
  | None => st' = st
  | Some series =>
      exists translated_values translations,
        Forall2 (translated_cell w) (dropna (values series)) translated_values
        /\ st' = LoopState
                   (write_back column series translated_values (translated_df st))
                   (processed st + length (dropna (values series)))
                   translations
        /\ if is_question_label column
           then exists t, translated_cell w (VStr column) t
                          /\ translations = <[column := t]> (column_translations st)
           else translations = column_translations st
  end.

(** What [translate_dataframe] has done to the world when it returns with
    the loop variables [st]. *)
Definition finished (w w' : world S) (st : loop_state) : Prop :=
  google_available w' = google_available w
  /\ (is_translation_available w = false -> translator w' = translator w)
  /\ (exists new, events w' = events w ++ new /\ Forall displayable new)
  /\ session_column_translations w'
     = Some match session_column_translations w with
            | Some old => column_translations st ∪ old
            | None => column_translations st
            end.

End WithClient.

End Translator.

(** ** CSVAnalyzer (src/utils/csv_analyzer.py) *)

Module Analyzer.
Import Py Pandas Re.

(** [self.date_patterns], as [__init__] sets it. *)
Definition date_patterns : list pattern :=
  [ [Item Digit 4 4; Item DashSlash 1 1; Item Digit 2 2; Item DashSlash 1 1;
     Item Digit 2 2];
    [Item Digit 2 2; Item DashSlash 1 1; Item Digit 2 2; Item DashSlash 1 1;
     Item Digit 4 4];
    [Item Digit 1 2; Item DashSlash 1 1; Item Digit 1 2; Item DashSlash 1 1;
     Item Digit 4 4] ].

(** Lines 99-102: the loop over the patterns, left at the first match. It
    tells whether [date_matches] is incremented for this value. *)
Fixpoint matches_a_pattern (patterns : list pattern) (value : string) : bool :=
  match patterns with
  | [] => false
  | p :: patterns' =>
      if search p value then true else matches_a_pattern patterns' value
  end.

(** Lines 97-102: the loop over the sample, carrying [date_matches]. *)
Fixpoint count_date_matches (sample_values : list string) (date_matches : nat) : nat :=
  match sample_values with
  | [] => date_matches
  | value :: rest =>
      count_date_matches rest
        (if matches_a_pattern date_patterns value
         then S date_matches else date_matches)
  end.

(** [_contains_dates(series)]; [None] is the [ZeroDivisionError] of an
    empty series. The quotient [date_matches / sample_size] is compared
    with 0.5 exactly: for integers up to 100 the rounded quotient exceeds
    0.5 just when [2 * date_matches > sample_size]. *)
Definition _contains_dates (series : list value) : option bool :=
  let sample_size := 100 `min` length series in
  let sample_values := List.map str (take sample_size series) in
  let date_matches := count_date_matches sample_values 0 in
  if (sample_size =? 0)%nat then None
  else Some (sample_size <? 2 * date_matches)%nat.

(** In the words of the specification: the text matches one of the three
    date-shaped patterns. *)
Definition date_shaped (text : string) : bool :=
  existsb (fun p => search p text) date_patterns.

(** In the words of the specification: of the first hundred present cells,
    stringified, more than half are date-shaped. *)
Definition mostly_dates (series : Series) : Prop :=
  let sample := take 100 (dropna (values series)) in
  (length sample
   < 2 * length (List.filter (fun v => date_shaped (str v)) sample))%nat.

Section WithParser.
(** [pd.to_numeric] on one text: does it parse as a number. *)
Context (parses_as_number : string -> bool).

(** [pd.to_numeric] accepts a cell of an object column: numbers and
    booleans are taken as they are, a text must parse, any other object
    is refused. *)
Definition numeric_cell (v : value) : bool :=
  match v with
  | VStr s => parses_as_number s
  | VTimestamp _ => false
  | _ => true
  end.

(** [pd.to_numeric(series, errors='raise')] returns instead of raising. *)
Definition to_numeric_ok (series : list value) : bool :=
  forallb numeric_cell series.

(** [_detect_column_type(series)]; [None] when an exception escapes. *)
Definition _detect_column_type (series : Series) : option string :=
  let non_null_series := dropna (values series) in
  if (length non_null_series =? 0)%nat then Some "empty"
  else if is_numeric_dtype (dtype_of series) then Some "numeric"
  else if is_datetime64_any_dtype (dtype_of series) then Some "datetime"
  else
    match _contains_dates non_null_series with
    | None => None
    | Some true => Some "datetime"
    | Some false =>
        if to_numeric_ok non_null_series then Some "numeric"
        else Some "text"
    end.

End WithParser.

(** *** The report *)

(** One entry of [analysis['columns']]: the keys the report reads and, in
    [stats], the type-specific keys it does not. *)
Record ColumnInfo := {
  type : string;
  non_null_count : nat;
  null_count : nat;
  unique_count : nat;
  sample_values : list value;
  stats : list (string * value)
}.

(** The dictionary [analyze_dataframe] returns; [columns] keeps the
    insertion order of the dictionary. *)
Record Analysis := {
  total_rows : nat;
  total_columns : nat;
  memory_usage : string;
  columns : list (string * ColumnInfo);
  text_columns : list string;
  numeric_columns : list string;
  date_columns : list string;
  total_missing_values : nat
}.

(** [generate_report] runs over two objects: the dictionary it was given,
    shared with the caller, and its local list [report]. *)
Record frame := Frame { analysis : Analysis; report : list string }.

Definition R (A : Type) : Type := frame -> A * frame.

Global Instance R_ret : MRet R := fun A a st => (a, st).
Global Instance R_bind : MBind R := fun A B k m st =>
  let '(a, st') := m st in k a st'.

(** [analysis[key]] *)
Definition lookup_key {A} (key : Analysis -> A) : R A :=
  fun st => (key (analysis st), st).

(** [report.append(line)] *)
Definition append (line : string) : R unit :=
  fun st => (tt, Frame (analysis st) (report st ++ [line])).

Definition read_report : R (list string) := fun st => (report st, st).

Fixpoint for_each {A} (body : A -> R unit) (l : list A) : R unit :=
  match l with
  | [] => mret tt
  | x :: l' => body x;; for_each body l'
  end.

(** A step that leaves the dictionary as it was. *)
Definition reads_only {A} (m : R A) : Prop :=
  forall st, analysis (snd (m st)) = analysis st.

Definition newline : string := chr 10.

(** The body of [generate_report], lines 201-236. *)
Definition generate_report_body : R string :=
  append "CSV DATA ANALYSIS REPORT";;
  append (repeat_str "=" 30);;
  rows ← lookup_key total_rows;
  append ("Total Rows: " +:+ pretty rows);;
  ncols ← lookup_key total_columns;
  append ("Total Columns: " +:+ pretty ncols);;
  mem ← lookup_key memory_usage;
  append ("Memory Usage: " +:+ mem);;
  missing ← lookup_key total_missing_values;
  append ("Missing Values: " +:+ pretty missing);;
  append "";;
  append "COLUMN BREAKDOWN:";;
  append (repeat_str "-" 20);;
  texts ← lookup_key text_columns;
  append ("Text Columns: " +:+ pretty (length texts));;
  for_each (fun col => append ("  - " +:+ col)) texts;;
  numerics ← lookup_key numeric_columns;
  append ("Numeric Columns: " +:+ pretty (length numerics));;
  for_each (fun col => append ("  - " +:+ col)) numerics;;
  dates ← lookup_key date_columns;
  append ("Date Columns: " +:+ pretty (length dates));;
  for_each (fun col => append ("  - " +:+ col)) dates;;
  append "";;
  append "DETAILED COLUMN ANALYSIS:";;
  append (repeat_str "-" 30);;
  items ← lookup_key columns;
  for_each (fun '(col_name, col_info) =>
              append (newline +:+ "Column: " +:+ col_name);;
              append ("  Type: " +:+ type col_info);;
              append ("  Non-null Count: " +:+ pretty (non_null_count col_info));;
              append ("  Null Count: " +:+ pretty (null_count col_info));;
              append ("  Unique Count: " +:+ pretty (unique_count col_info));;
              append ("  Sample Values: " +:+ str_list (sample_values col_info)))
           items;;
  lines ← read_report;
  mret (join newline lines).

(** [generate_report(analysis)]: the text returned, and the dictionary as
    the call leaves it. *)
Definition generate_report (a : Analysis) : string * Analysis :=
  let '(text, st) := generate_report_body (Frame a []) in
  (text, analysis st).

(** The caller's side of repeated calls: [n] calls in a row on one
    dictionary, each on the dictionary as the call before left it; the texts
    returned, first call first. *)
Fixpoint repeated_reports (n : nat) (a : Analysis) : list string :=
  match n with
  | O => []
  | Datatypes.S n' =>
      let '(text, a') := generate_report a in
      text :: repeated_reports n' a'
  end.

(** *** The profile of a table *)

(** [_get_sample_values(series, n)] *)
Definition _get_sample_values (series : Series) (n : nat) : list value :=
  let non_null_values := dropna (values series) in
  if (length non_null_values =? 0)%nat then []
  else take (n `min` length non_null_values) non_null_values.

(** [f"{num / den:.1f}"] for a divisor that is a power of two: below 2^53
    the quotient is exact in floating point, and the format rounds it to one
    decimal, a tie going to the even digit. *)
Definition format_1f (num den : N) : string :=
  let q := (10 * num / den)%N in
  let r := (10 * num mod den)%N in
  let tenths :=
    if (2 * r <? den)%N then q
    else if (den <? 2 * r)%N then (q + 1)%N
    else if N.even q then q else (q + 1)%N in
  pretty (tenths / 10)%N +:+ "." +:+ pretty (tenths mod 10)%N.

(** [d[key] = v] on a dictionary kept in insertion order. *)
Fixpoint dict_set {V} (key : string) (v : V) (d : list (string * V))
  : list (string * V) :=
  match d with
  | [] => [(key, v)]
  | (k, v0) :: d' =>
      if String.eqb k key then (k, v) :: d' else (k, v0) :: dict_set key v d'
  end.

Section WithPandas.
(** What pandas computes and the model takes as given: whether a text parses
    as a number, [series.nunique()], [df.memory_usage(deep=True).sum()], and
    the type-specific statistics of [_analyze_numeric_column],
    [_analyze_text_column] and [_analyze_datetime_column], which are
    aggregates over floats and dates. *)
Context (parses_as_number : string -> bool).
Context (nunique : Series -> nat).
Context (memory_usage_sum : DataFrame -> N).
Context (numeric_stats text_stats datetime_stats : Series -> list (string * value)).

(** [_get_memory_usage(df)] *)
Definition _get_memory_usage (df : DataFrame) : string :=
  let memory_bytes := memory_usage_sum df in
  if (memory_bytes <? 1024)%N then pretty memory_bytes +:+ " bytes"
  else if (memory_bytes <? 1024 * 1024)%N
       then format_1f memory_bytes 1024 +:+ " KB"
       else format_1f memory_bytes (1024 * 1024) +:+ " MB".

(** [_analyze_column(series)]; [None] when the classifier raises. *)
Definition _analyze_column (series : Series) : option ColumnInfo :=
  match _detect_column_type parses_as_number series with
  | None => None
  | Some t =>
      Some {| type := t;
              non_null_count := length (dropna (values series));
              null_count := length (List.filter isna (values series));
              unique_count := nunique series;
              sample_values := _get_sample_values series 5;
              stats := if String.eqb t "numeric" then numeric_stats series
                       else if String.eqb t "text" then text_stats series
                       else if String.eqb t "datetime" then datetime_stats series
                       else [] |}
  end.

(** Lines 30-39: one turn of the loop of [analyze_dataframe]. *)
Definition record_column (column : string) (col_analysis : ColumnInfo)
           (a : Analysis) : Analysis :=
  let t := type col_analysis in
  {| total_rows := total_rows a;
     total_columns := total_columns a;
     memory_usage := memory_usage a;
     columns := dict_set column col_analysis (columns a);
     text_columns :=
       if String.eqb t "text" then text_columns a ++ [column]
       else text_columns a;
     numeric_columns :=
       if String.eqb t "text" then numeric_columns a
       else if String.eqb t "numeric" then numeric_columns a ++ [column]
       else numeric_columns a;
     date_columns :=
       if String.eqb t "text" then date_columns a
       else if String.eqb t "numeric" then date_columns a
       else if String.eqb t "datetime" then date_columns a ++ [column]
       else date_columns a;
     total_missing_values := total_missing_values a |}.

(** Lines 29-39: the loop over [df.columns]; [None] when a turn raises. *)
Fixpoint analyze_columns (df : DataFrame) (labels : list string) (a : Analysis)
  : option Analysis :=
  match labels with
  | [] => Some a
  | column :: rest =>
      match df_get column df with
      | None => None
      | Some series =>
          match _analyze_column series with
          | None => None
          | Some col_analysis =>
              analyze_columns df rest (record_column column col_analysis a)
          end
      end
  end.

(** [analyze_dataframe(df)] *)
Definition analyze_dataframe (df : DataFrame) : option Analysis :=
  analyze_columns df (column_names df)
    {| total_rows := nrows df;
       total_columns := length (cols df);
       memory_usage := _get_memory_usage df;
       columns := [];
       text_columns := [];
       numeric_columns := [];
       date_columns := [];
       total_missing_values :=
         list_sum (List.map (fun c => length (List.filter isna (values (snd c))))
                            (cols df)) |}.

End WithPandas.

(** [d.get(key)] on a dictionary kept in insertion order. *)
Fixpoint dict_get {V} (key : string) (d : list (string * V)) : option V :=
  match d with
  | [] => None
  | (k, v) :: d' => if String.eqb k key then Some v else dict_get key d'
  end.

(** The labels of the profile whose entry carries the tag [t]. *)
Definition labels_tagged (t : string) (a : Analysis) : list string :=
  List.map fst (List.filter (fun e => String.eqb (type (snd e)) t) (columns a)).

(** A profile with the type-specific statistics of every entry left out. *)
Definition without_stats (a : Analysis) : Analysis :=
  {| total_rows := total_rows a;
     total_columns := total_columns a;
     memory_usage := memory_usage a;
     columns :=
       List.map (fun e => (fst e,
                           {| type := type (snd e);
                              non_null_count := non_null_count (snd e);
                              null_count := null_count (snd e);
                              unique_count := unique_count (snd e);
                              sample_values := sample_values (snd e);
                              stats := [] |}))
                (columns a);
     text_columns := text_columns a;
     numeric_columns := numeric_columns a;
     date_columns := date_columns a;
     total_missing_values := total_missing_values a |}.

(** The lines of the report, as the specification lists them: the counts,
    the three lists of labels, and a block of six lines for every entry. *)
Definition entry_lines (e : string * ColumnInfo) : list string :=
  [ newline +:+ "Column: " +:+ fst e;
    "  Type: " +:+ type (snd e);
    "  Non-null Count: " +:+ pretty (non_null_count (snd e));
    "  Null Count: " +:+ pretty (null_count (snd e));
    "  Unique Count: " +:+ pretty (unique_count (snd e));
    "  Sample Values: " +:+ str_list (sample_values (snd e)) ].

Definition report_lines (a : Analysis) : list string :=
  [ "CSV DATA ANALYSIS REPORT";
    repeat_str "=" 30;
    "Total Rows: " +:+ pretty (total_rows a);
    "Total Columns: " +:+ pretty (total_columns a);
    "Memory Usage: " +:+ memory_usage a;
    "Missing Values: " +:+ pretty (total_missing_values a);
    "";
    "COLUMN BREAKDOWN:";
    repeat_str "-" 20 ]
  ++ ("Text Columns: " +:+ pretty (length (text_columns a)))
     :: List.map (fun col => "  - " +:+ col) (text_columns a)
  ++ ("Numeric Columns: " +:+ pretty (length (numeric_columns a)))
     :: List.map (fun col => "  - " +:+ col) (numeric_columns a)
  ++ ("Date Columns: " +:+ pretty (length (date_columns a)))
     :: List.map (fun col => "  - " +:+ col) (date_columns a)
  ++ [ ""; "DETAILED COLUMN ANALYSIS:"; repeat_str "-" 30 ]
  ++ concat (List.map entry_lines (columns a)).

End Analyzer.

(** ** DataVisualizer.create_correlation_heatmap (src/visualizer.py) *)

Module Visualizer.
Import Py Pandas.

(** An annotation centred on the paper ([x = y = 0.5], no arrow). *)
Record annotation := Annotation {
  text : string;
  font_size : nat;
  font_color : option string
}.

(** A chart: its traces, annotations and the layout entries the builder
    sets. *)
Record Figure (Trace : Type) := {
  data : list Trace;
  annotations : list annotation;
  title : option string;
  height : option nat;
  xaxis_title : option string;
  yaxis_title : option string
}.
Arguments Build_Figure {Trace}.
Arguments data {Trace}.
Arguments annotations {Trace}.
Arguments title {Trace}.

Section WithPlotting.
(** [numeric_df.corr()] and [px.imshow(matrix, ...)]: either may raise. *)
Context {Matrix Trace : Type}.
Context (corr : DataFrame -> string + Matrix).
Context (imshow : Matrix -> string + list Trace).

(** [go.Figure()] with one annotation and a title. *)
Definition message_figure (a : annotation) (t : string) : Figure Trace :=
  Build_Figure [] [a] (Some t) None None None.

(** Lines 83-114: the [try] block; [inl e] when [e] is raised. *)
Definition heatmap_try (df : DataFrame) : string + Figure Trace :=
  let numeric_df := select_dtypes_number df in
  if empty numeric_df || (length (cols numeric_df) <? 2)%nat then
    inr (message_figure
           (Annotation "Need at least 2 numeric columns for correlation analysis"
                       16 None)
           "Correlation Matrix")
  else
    match corr numeric_df with
    | inl e => inl e
    | inr correlation_matrix =>
        match imshow correlation_matrix with
        | inl e => inl e
        | inr traces =>
            inr (Build_Figure traces [] (Some "Correlation Matrix")
                              (Some 400) (Some "Variables") (Some "Variables"))
        end
    end.

(** [create_correlation_heatmap(df)] *)
Definition create_correlation_heatmap (df : DataFrame) : Figure Trace :=
  match heatmap_try df with
  | inr fig => fig
  | inl e =>
      message_figure
        (Annotation ("Error creating correlation heatmap: " +:+ e) 14 (Some "red"))
        "Correlation Matrix"
  end.

End WithPlotting.
(** *** The histogram and the text-length chart *)

Section WithHistogram.
(** What pandas and plotly do and the model takes as given:
    [pd.to_numeric(errors='coerce')] on one cell, [None] standing for the NaN
    that [dropna] removes, and the drawing of the chart from the data, the
    number of bins and the label ([px.histogram], the mean and median lines,
    the layout), which may raise; [Series.astype(str)], the texts pandas
    prints for the cells of a column, which for a column of timestamps
    follow one format chosen for the whole column. *)
Context {Num Trace : Type}.
Context (to_numeric : value -> option Num).
Context (astype_str : Series -> list string).
Context (draw_histogram : list Num -> nat -> string -> string + Figure Trace).
Context (draw_text_lengths : list nat -> nat -> string -> string + Figure Trace).

(** [min(50, max(10, n // 10))] *)
Definition histogram_bins (n : nat) : nat := 50 `min` (10 `max` (n / 10)).

(** Lines 19-65 of [create_histogram]: the [try] block. A missing column
    raises [KeyError], whose text is the [repr] of the label. *)
Definition histogram_try (df : DataFrame) (column : string)
  : string + Figure Trace :=
  match df_get column df with
  | None => inl (repr_str column)
  | Some series =>
      let numeric_data := omap to_numeric (values series) in
      if (length numeric_data =? 0)%nat then
        inr (message_figure
               (Annotation "No numeric data available for visualization" 16 None)
               ("Histogram: " +:+ column))
      else draw_histogram numeric_data (histogram_bins (length numeric_data)) column
  end.

(** [create_histogram(df, column)] *)
Definition create_histogram (df : DataFrame) (column : string) : Figure Trace :=
  match histogram_try df column with
  | inr fig => fig
  | inl e =>
      message_figure
        (Annotation ("Error creating histogram: " +:+ e) 14 (Some "red"))
        ("Histogram: " +:+ column)
  end.

(** [analyze_text_length(df, column)]: the lengths of the texts
    [astype(str)] gives for the column; the [KeyError] of a missing column is
    caught and answered with the empty series. *)
Definition analyze_text_length (df : DataFrame) (column : string) : list nat :=
  match df_get column df with
  | None => []
  | Some series =>
      let text_data := astype_str series in
      List.map String.length text_data
  end.

(** [min(30, max(10, n // 20))] *)
Definition text_length_bins (n : nat) : nat := 30 `min` (10 `max` (n / 20)).

(** [create_text_length_chart(lengths, column_name)] *)
Definition create_text_length_chart (lengths : list nat) (column_name : string)
  : Figure Trace :=
  let attempt :=
    if (length lengths =? 0)%nat then
      inr (message_figure
             (Annotation "No text data available for analysis" 16 None)
             ("Text Length Analysis: " +:+ column_name))
    else draw_text_lengths lengths (text_length_bins (length lengths)) column_name in
  match attempt with
  | inr fig => fig
  | inl e =>
      message_figure
        (Annotation ("Error creating text length chart: " +:+ e) 14 (Some "red"))
        ("Text Length Analysis: " +:+ column_name)
  end.

End WithHistogram.

End Visualizer.

(** ** The card view of the application (src/app.py) *)

Module App.
Import Py.

(** Lines 254 and 265: the label names a time. *)
Definition is_timestamp_label (col : string) : bool :=
  contains "timestamp" (lower col) || contains "date" (lower col)
  || contains "time" (lower col).

(** Lines 253-256: the labels the cards show, those naming a time first. *)
Definition ordered_cols (columns : list string) : list string :=
  let all_cols := List.filter (fun col => negb (endswith "_original" col)) columns in
  let timestamp_cols := List.filter is_timestamp_label all_cols in
  let text_cols :=
    List.filter (fun col => negb (existsb (String.eqb col) timestamp_cols)) all_cols in
  timestamp_cols ++ text_cols.

(** Lines 274-281: the label is shown as a question. Three of the needles
    are not those of the translator: the file spells the inverted question
    mark as the two characters U+00AC U+00F8, and the accented "estas" and
    "como" with the character U+221A, which no text of code points below 256
    contains, so that these two tests are [false]. *)
Definition shown_as_question (col_name : string) : bool :=
  let col_name_str := lower col_name in
  contains "?" col_name || contains (chr 172 +:+ chr 248) col_name
  || contains "question" col_name_str || contains "pregunta" col_name_str
  || contains "texto" col_name_str || contains "text" col_name_str
  || contains "translated" col_name_str || contains "mango" col_name_str
  || false
  || contains "estas" col_name_str
  || contains "algo" col_name_str || contains "favor" col_name_str
  || contains "por favor" col_name_str || contains "como" col_name_str
  || false.

End App.

(** ** Sample services and worlds, used to run the model on concrete inputs *)

Module Samples.
Import Py Pandas Effects.

(** A client that counts its calls: it raises on the text [boom], returns
    a result without text on [void], and brackets any other text. *)
Global Instance bracket_service : TranslationService nat :=
  fun calls text dest src =>
    if String.eqb text "boom" then (inl "ConnectionError", S calls)
    else if String.eqb text "void" then (inr None, S calls)
    else (inr (Some ("<" +:+ text +:+ ">")), S calls).

(** The client is up. *)
Definition ready : world nat := World (Some 0) true [] None.

(** The client failed to initialise. *)
Definition not_initialised : world nat := World None true [] None.

(** The library is not installed. *)
Definition not_configured : world nat := World None false [] None.

Definition text_column (l : list value) : Series :=
  {| dtype_of := DObject; values := l |}.

(** A table that already has a column [q_original]. *)
Definition survey : DataFrame :=
  {| nrows := 2;
     cols := [("q", text_column [VStr "hola"; VStr "adios"]);
              ("q_original", text_column [VStr "kept"; VStr "too"]);
              ("n", {| dtype_of := DInt64; values := [VInt 1; VInt 2] |})] |}.

(** The same table without the column [q_original]. *)
Definition plain_survey : DataFrame :=
  {| nrows := 2;
     cols := [("q", text_column [VStr "hola"; VStr "adios"]);
              ("n", {| dtype_of := DInt64; values := [VInt 1; VInt 2] |})] |}.

(** A float column read from an empty CSV column. *)
Definition blank_numbers : Series :=
  {| dtype_of := DFloat64; values := [VNaN; VNaN] |}.

Definition iso_dates : Series :=
  text_column [VStr "2021-01-01"; VStr "2021-02-01"; VStr "2021-03-01"].

Definition mixed_numbers : Series :=
  text_column [VStr "12"; VStr "7"; VStr "abc"].

(** A parser for [pd.to_numeric]: unsigned decimal integers. *)
Definition decimal (s : string) : bool :=
  negb (String.eqb s "")
  && match Re.eat Re.Digit (String.length s) s with
     | Some _ => true
     | None => false
     end.

(** A detector for the counting client: it raises on [boom] and answers
    [es] otherwise. *)
Global Instance spanish_detector : DetectionService nat :=
  fun calls text =>
    if String.eqb text "boom" then (inl "ConnectionError", S calls)
    else (inr (Some "es"), S calls).

(** A stand-in for [astype(str)] that prints cell by cell, as pandas does
    for a column of storage type [object]. *)
Definition cellwise (s : Series) : list string := List.map str (values s).

(** Stand-ins for what pandas computes in [analyze_dataframe]. *)
Definition count_cells (s : Series) : nat := length (values s).

Definition two_kilobytes (df : DataFrame) : N := 2048%N.

Definition no_stats (s : Series) : list (string * value) := [].

(** Two profiles that differ in the statistics of their one column only. *)
Definition profile_with (st : list (string * value)) : Analyzer.Analysis :=
  {| Analyzer.total_rows := 2;
     Analyzer.total_columns := 1;
     Analyzer.memory_usage := "2.0 KB";
     Analyzer.columns :=
       [("n", {| Analyzer.type := "numeric";
                 Analyzer.non_null_count := 2;
                 Analyzer.null_count := 0;
                 Analyzer.unique_count := 2;
                 Analyzer.sample_values := [VInt 1; VInt 2];
                 Analyzer.stats := st |})];
     Analyzer.text_columns := [];
     Analyzer.numeric_columns := ["n"];
     Analyzer.date_columns := [];
     Analyzer.total_missing_values := 0 |}.

End Samples.

(** * Properties *)

Import Py Pandas Effects.

(** ** The monad *)

Ltac unfold_M :=
  unfold mbind, M_bind, bind, mret, M_ret, ret, try_except, emit,
    get_translator, get_available, call_translate in *.

Section TranslateText.
Context {S : Type} `{TranslationService S}.
Import Translator.

Lemma translate_text_passes (text : value) (target source : string) (w : world S) :
  negb (truthy text) || isna text = true
  \/ (String.length (strip (str text)) < 3)%nat ->
  translate_text text target source w = (inr text, w).
Proof.
  intros Hc. unfold translate_text.
  destruct (negb (truthy text) || isna text) eqn:Hg; [reflexivity|].
  destruct Hc as [Hc|Hc]; [discriminate|].
  destruct (String.eqb (strip (str text)) ""); [reflexivity|].
  destruct (Nat.ltb_spec (String.length (strip (str text))) 3); [reflexivity|lia].
Qed.

Lemma translate_text_translates (text : value) (target source : string) (w : world S) :
  truthy text = true -> isna text = false ->
  (3 <= String.length (strip (str text)))%nat ->
  translate_text text target source w
  = translation_path (strip (str text)) target source w.
Proof.
  intros Ht Hn Hl. unfold translate_text. rewrite Ht, Hn. simpl.
  destruct (String.eqb_spec (strip (str text)) "") as [E|_].
  - rewrite E in Hl. simpl in Hl. lia.
  - destruct (Nat.ltb_spec (String.length (strip (str text))) 3); [lia|reflexivity].
Qed.

Lemma translation_path_unavailable (text_str target source : string) (w : world S) :
  translator w = None \/ google_available w = false ->
  translation_path text_str target source w
  = (inr (VStr ("[Translation unavailable] " +:+ text_str)), w).
Proof.
  intros Hu. unfold translation_path. unfold_M.
  destruct Hu as [Hu|Hu]; rewrite Hu.
  - reflexivity.
  - destruct (translator w); reflexivity.
Qed.

Lemma translation_path_ready (text_str target source : string) (w : world S) (c : S) :
  translator w = Some c -> google_available w = true ->
  translation_path text_str target source w
  = match svc_translate c text_str target source with
    | (inl e, c') =>
        (inr (VStr text_str),
         World (Some c') true
               ((events w ++ [EvSleep 100])
                ++ [EvWarning ("Translation failed for text '"
                               +:+ slice_to 50 text_str +:+ "...': " +:+ e)])
               (session_column_translations w))
    | (inr result, c') =>
        (inr (VStr match result with Some t => t | None => text_str end),
         World (Some c') true (events w ++ [EvSleep 100])
               (session_column_translations w))
    end.
Proof.
  intros Ht Ha. unfold translation_path. unfold_M. rewrite Ht, Ha. simpl.
  rewrite Ht.
  destruct (svc_translate c text_str target source) as [[e|r] c'];
    simpl; rewrite ?Ha; reflexivity.
Qed.

Lemma translation_path_returns (text_str target source : string) (w : world S) :
  exists v w', translation_path text_str target source w = (inr v, w').
Proof.
  destruct (translator w) as [c|] eqn:Ht.
  - destruct (google_available w) eqn:Ha.
    + rewrite (translation_path_ready _ _ _ _ c Ht Ha).
      destruct (svc_translate c text_str target source) as [[e|r] c']; eauto.
    + rewrite translation_path_unavailable by auto. eauto.
  - rewrite translation_path_unavailable by auto. eauto.
Qed.

Lemma translate_text_returns (text : value) (target source : string) (w : world S) :
  exists v w', translate_text text target source w = (inr v, w').
Proof.
  unfold translate_text.
  destruct (negb (truthy text) || isna text); [unfold_M; eauto|].
  destruct (String.eqb (strip (str text)) ""); [unfold_M; eauto|].
  destruct (String.length (strip (str text)) <? 3)%nat; [unfold_M; eauto|].
  apply translation_path_returns.
Qed.

End TranslateText.

(** ** Strings and tables *)

Lemma length_append (s t : string) :
  String.length (s +:+ t) = (String.length s + String.length t)%nat.
Proof. induction s as [|c s IH]; simpl; [reflexivity | now rewrite IH]. Qed.

Lemma append_cancel_r (s s' t : string) : s +:+ t = s' +:+ t -> s = s'.
Proof.
  revert s'. induction s as [|c s IH]; intros [|c' s'] E; simpl in E.
  - reflexivity.
  - apply (f_equal String.length) in E. simpl in E.
    rewrite ?length_append in E. simpl in E. lia.
  - apply (f_equal String.length) in E. simpl in E.
    rewrite ?length_append in E. simpl in E. lia.
  - injection E as -> E. f_equal. now apply IH.
Qed.

Lemma original_label_fresh (column : string) : column +:+ "_original" <> column.
Proof.
  intros E. apply (f_equal String.length) in E. rewrite length_append in E.
  simpl in E. lia.
Qed.

Lemma assoc_get_set_eq name s l : assoc_get name (assoc_set name s l) = Some s.
Proof.
  induction l as [|[k s0] l IH]; simpl.
  - now rewrite String.eqb_refl.
  - destruct (String.eqb k name) eqn:E; simpl; rewrite E; auto.
Qed.

Lemma assoc_get_set_ne name name' s l :
  name <> name' -> assoc_get name' (assoc_set name s l) = assoc_get name' l.
Proof.
  intros Hne. induction l as [|[k s0] l IH]; simpl.
  - destruct (String.eqb_spec name name'); [contradiction | reflexivity].
  - destruct (String.eqb_spec k name) as [->|Hk]; simpl.
    + destruct (String.eqb_spec name name'); [contradiction | reflexivity].
    + destruct (String.eqb k name'); auto.
Qed.

Lemma assoc_get_None name l : assoc_get name l = None <-> ~ In name (List.map fst l).
Proof.
  induction l as [|[k s0] l IH]; simpl.
  - tauto.
  - destruct (String.eqb_spec k name) as [->|Hk].
    + split; [discriminate | tauto].
    + rewrite IH. tauto.
Qed.

Lemma assoc_set_names name s l :
  List.map fst (assoc_set name s l)
  = match assoc_get name l with
    | Some _ => List.map fst l
    | None => List.map fst l ++ [name]
    end.
Proof.
  induction l as [|[k s0] l IH]; simpl.
  - reflexivity.
  - destruct (String.eqb k name) eqn:E; simpl.
    + reflexivity.
    + rewrite IH. destruct (assoc_get name l); reflexivity.
Qed.

Lemma assoc_set_Forall (P : string * Series -> Prop) name s l :
  (forall k, P (k, s)) -> Forall P l -> Forall P (assoc_set name s l).
Proof.
  intros Hs. induction 1 as [|[k s0] l Hx Hl IH]; simpl.
  - constructor; auto.
  - destruct (String.eqb k name); constructor; auto.
Qed.

Lemma assoc_get_Forall (P : string * Series -> Prop) name s l :
  Forall P l -> assoc_get name l = Some s -> exists k, P (k, s).
Proof.
  induction 1 as [|[k s0] l Hx Hl IH]; simpl; [discriminate|].
  destruct (String.eqb k name); [|auto].
  intros [= <-]. eauto.
Qed.

Lemma loc_assign_length mask new old :
  length (loc_assign mask new old) = length old.
Proof.
  revert new old. induction mask as [|b mask IH]; intros new [|o old]; try reflexivity.
  - destruct b; reflexivity.
  - destruct b; simpl.
    + destruct new; simpl; [reflexivity | now rewrite IH].
    + now rewrite IH.
Qed.

Lemma df_get_set_eq name s df : df_get name (df_set name s df) = Some s.
Proof. apply assoc_get_set_eq. Qed.

Lemma df_get_set_ne name name' s df :
  name <> name' -> df_get name' (df_set name s df) = df_get name' df.
Proof. apply assoc_get_set_ne. Qed.

Lemma df_get_loc_set_ne mask name name' new df :
  name <> name' -> df_get name' (loc_set mask name new df) = df_get name' df.
Proof.
  intros Hne. unfold loc_set. destruct (df_get name df); now apply df_get_set_ne.
Qed.

Lemma well_formed_set name s df :
  length (values s) = nrows df -> well_formed df -> well_formed (df_set name s df).
Proof.
  intros Hlen [Hnd Hall]. split.
  - unfold column_names, df_set. simpl. rewrite assoc_set_names.
    destruct (assoc_get name (cols df)) eqn:E; [exact Hnd|].
    apply assoc_get_None in E.
    apply NoDup_ListNoDup. apply NoDup_ListNoDup in Hnd.
    apply List.NoDup_app; repeat split; auto.
    + constructor; [simpl; tauto | constructor].
    + intros x Hx [<-|[]]. contradiction.
  - simpl. apply assoc_set_Forall; auto.
Qed.

Lemma well_formed_loc_set mask name new df :
  well_formed df -> well_formed (loc_set mask name new df).
Proof.
  intros Hwf. unfold loc_set. destruct (df_get name df) as [cur|] eqn:E.
  - apply well_formed_set; [|exact Hwf]. simpl. rewrite loc_assign_length.
    destruct Hwf as [_ Hall].
    destruct (assoc_get_Forall _ _ _ _ Hall E) as [k Hk]. exact Hk.
  - apply well_formed_set; [|exact Hwf]. simpl.
    now rewrite loc_assign_length, repeat_length.
Qed.

(** ** The loop of [translate_dataframe] *)

Lemma bind_returns {S A B} (m : M S A) (k : A -> M S B) (w w1 : world S) (a : A) :
  m w = (inr a, w1) -> (m ≫= k) w = k a w1.
Proof. intros E. unfold mbind, M_bind, bind. now rewrite E. Qed.

Lemma foldM_invariant {S A B} (P : A -> Prop) (body : A -> B -> M S A) (l : list B) :
  (forall x, In x l -> forall a w, P a ->
     exists a' w', body a x w = (inr a', w') /\ P a') ->
  forall a w, P a -> exists a' w', foldM body a l w = (inr a', w') /\ P a'.
Proof.
  induction l as [|x l IH]; intros Hbody a w Ha; simpl.
  - unfold_M. eauto.
  - destruct (Hbody x (or_introl eq_refl) a w Ha) as (a1 & w1 & E1 & H1).
    unfold_M. rewrite E1.
    apply IH; [|exact H1]. intros y Hy. apply Hbody. now right.
Qed.

(** A property [Q] that one element [x0] of the list establishes from [P],
    and that every element keeps, holds at the end. *)
Lemma foldM_establish {S A B} (P Q : A -> Prop) (body : A -> B -> M S A)
      (l : list B) (x0 : B) :
  (forall x, In x l -> forall a w, P a ->
     exists a' w', body a x w = (inr a', w') /\ P a') ->
  (forall x, In x l -> forall a w, Q a ->
     exists a' w', body a x w = (inr a', w') /\ Q a') ->
  (forall a w, P a -> exists a' w', body a x0 w = (inr a', w') /\ Q a') ->
  In x0 l ->
  forall a w, P a -> exists a' w', foldM body a l w = (inr a', w') /\ Q a'.
Proof.
  induction l as [|x l IH]; intros HP HQ H0 Hin a w Ha; [destruct Hin|].
  simpl. destruct Hin as [->|Hin].
  - destruct (H0 a w Ha) as (a1 & w1 & E1 & H1).
    unfold_M. rewrite E1.
    apply (foldM_invariant Q); [|exact H1]. intros y Hy. apply HQ. now right.
  - destruct (HP x (or_introl eq_refl) a w Ha) as (a1 & w1 & E1 & H1).
    unfold_M. rewrite E1.
    apply IH; auto; intros y Hy; [apply HP | apply HQ]; now right.
Qed.

Section TranslateDataframe.
Context {S : Type} `{TranslationService S}.
Import Translator.

Lemma translate_values_returns (total : nat) (target : string) (vals : list value) :
  forall (n : nat) (w : world S),
  exists out n' w',
    translate_values total target vals n w = (inr (out, n'), w')
    /\ length out = length vals.
Proof.
  induction vals as [|v vals IH]; intros n w; simpl.
  - unfold_M. eauto.
  - assert (exists t w1,
               (if isna v || String.eqb (strip (str v)) "" then mret v
                else translate_text v target "auto") w = (inr t, w1))
      as (t & w1 & E1).
    { destruct (isna v || String.eqb (strip (str v)) "");
        [unfold_M; eauto | apply translate_text_returns]. }
    rewrite (bind_returns _ _ _ _ _ E1).
    assert (exists w2,
               (if (Datatypes.S n mod 5 =? 0)%nat
                then emit (EvProgress (Datatypes.S n `min` total) total)
                else mret tt) w1 = (inr tt, w2))
      as (w2 & E2).
    { destruct (Datatypes.S n mod 5 =? 0)%nat; unfold_M; eauto. }
    rewrite (bind_returns _ _ _ _ _ E2).
    destruct (IH (Datatypes.S n) w2) as (out & n' & w3 & E3 & Hlen).
    rewrite (bind_returns _ _ _ _ _ E3).
    exists (t :: out), n', w3. simpl. auto.
Qed.

(** What one turn of the loop does to the table. *)
Lemma translate_column_table (df : DataFrame) (total : nat) (target : string)
      (st : loop_state) (column : string) (w : world S) :
  exists st' w',
    translate_column df total target st column w = (inr st', w')
    /\ match df_get column df with
       | None => translated_df st' = translated_df st
       | Some series =>
           exists translated_values,
             length translated_values = length (dropna (values series))
             /\ translated_df st'
                = write_back column series translated_values (translated_df st)
       end.
Proof.
  unfold translate_column. destruct (df_get column df) as [series|].
  - erewrite bind_returns by reflexivity.
    set (w1 := World _ _ _ _).
    assert (exists ct w2,
               (if is_question_label column
                then translated_column_name ←
                       translate_text (VStr column) target "auto";
                     mret (<[column := translated_column_name]> (column_translations st))
                else mret (column_translations st)) w1 = (inr ct, w2))
      as (ct & w2 & E2).
    { destruct (is_question_label column); [|unfold_M; eauto].
      destruct (translate_text_returns (VStr column) target "auto" w1)
        as (v & w2 & E).
      rewrite (bind_returns _ _ _ _ _ E). unfold_M. eauto. }
    rewrite (bind_returns _ _ _ _ _ E2).
    destruct (translate_values_returns total target (dropna (values series))
                (processed st) w2) as (out & n' & w3 & E3 & Hlen).
    rewrite (bind_returns _ _ _ _ _ E3).
    eexists _, _. split; [reflexivity|]. simpl. eauto.
  - erewrite bind_returns by reflexivity.
    eexists _, _. split; [reflexivity|]. reflexivity.
Qed.

(** A property of the table that every turn of the loop keeps holds of the
    table returned. *)
Lemma translate_dataframe_invariant (P : DataFrame -> Prop) (df : DataFrame)
      (columns : list string) (target : string) (w : world S) :
  P df ->
  (forall column series translated_values tdf,
      In column columns -> df_get column df = Some series ->
      length translated_values = length (dropna (values series)) ->
      P tdf -> P (write_back column series translated_values tdf)) ->
  exists df' w', translate_dataframe df columns target w = (inr df', w') /\ P df'.
Proof.
  intros H0 Hstep. unfold translate_dataframe.
  destruct columns as [|c0 columns0] eqn:Ecols; [unfold_M; eauto|].
  rewrite <- Ecols in *. clear Ecols.
  erewrite bind_returns by reflexivity.
  set (w1 := World _ _ _ _).
  destruct (foldM_invariant (fun st => P (translated_df st))
              (translate_column df (total_cells df columns) target) columns)
    with (a := LoopState df 0 ∅) (w := w1) as (st & w2 & E & HP); [|exact H0|].
  - intros x Hx a w' Ha.
    destruct (translate_column_table df (total_cells df columns) target a x w')
      as (st' & w'' & E & Hst).
    exists st', w''. split; [exact E|].
    destruct (df_get x df) as [series|] eqn:Eg.
    + destruct Hst as (tv & Hlen & ->). now apply Hstep with (series := series).
    + now rewrite Hst.
  - rewrite (bind_returns _ _ _ _ _ E).
    unfold store_column_translations. unfold_M. simpl. eauto.
Qed.

Lemma translate_dataframe_establish (P Q : DataFrame -> Prop) (df : DataFrame)
      (columns : list string) (target : string) (w : world S)
      (col : string) (series0 : Series) :
  P df ->
  (forall column series translated_values tdf,
      In column columns -> df_get column df = Some series ->
      P tdf -> P (write_back column series translated_values tdf)) ->
  (forall column series translated_values tdf,
      In column columns -> df_get column df = Some series ->
      Q tdf -> Q (write_back column series translated_values tdf)) ->
  (forall translated_values tdf,
      P tdf -> Q (write_back col series0 translated_values tdf)) ->
  In col columns -> df_get col df = Some series0 ->
  exists df' w', translate_dataframe df columns target w = (inr df', w') /\ Q df'.
Proof.
  intros H0 HP HQ Hest Hin Hcol. unfold translate_dataframe.
  destruct columns as [|c0 columns0] eqn:Ecols; [destruct Hin|].
  rewrite <- Ecols in *. clear Ecols.
  erewrite bind_returns by reflexivity.
  set (w1 := World _ _ _ _).
  assert (forall (R : DataFrame -> Prop),
             (forall column series translated_values tdf,
                 In column columns -> df_get column df = Some series ->
                 R tdf -> R (write_back column series translated_values tdf)) ->
             forall x, In x columns -> forall a w', R (translated_df a) ->
             exists a' w'',
               translate_column df (total_cells df columns) target a x w'
               = (inr a', w'') /\ R (translated_df a')) as Hturn.
  { intros R HR x Hx a w' Ha.
    destruct (translate_column_table df (total_cells df columns) target a x w')
      as (st' & w'' & E & Hst).
    exists st', w''. split; [exact E|].
    destruct (df_get x df) as [series|] eqn:Eg.
    - destruct Hst as (tv & Hlen & ->). now apply HR with (series := series).
    - now rewrite Hst. }
  destruct (foldM_establish (fun st => P (translated_df st))
              (fun st => Q (translated_df st))
              (translate_column df (total_cells df columns) target) columns col)
    with (a := LoopState df 0 ∅) (w := w1) as (st & w2 & E & HQ'); auto.
  - intros a w' Ha.
    destruct (translate_column_table df (total_cells df columns) target a col w')
      as (st' & w'' & E & Hst).
    exists st', w''. split; [exact E|].
    rewrite Hcol in Hst. destruct Hst as (tv & Hlen & ->). now apply Hest.
  - rewrite (bind_returns _ _ _ _ _ E).
    unfold store_column_translations. unfold_M. simpl. eauto.
Qed.

Lemma write_back_keeps (column : string) (series : Series) (tv : list value)
      (tdf : DataFrame) (name : string) (x : Series) :
  name <> column -> df_get name tdf = Some x ->
  df_get name (write_back column series tv tdf) = Some x.
Proof.
  intros Hne Hx. unfold write_back.
  set (t1 := loc_set _ _ _ _).
  assert (df_get name t1 = Some x) as H1
      by (unfold t1; rewrite df_get_loc_set_ne; auto).
  unfold has_column. destruct (df_get (column +:+ "_original") t1) eqn:E; [exact H1|].
  rewrite df_get_set_ne; [exact H1|]. intros <-. congruence.
Qed.

Lemma write_back_original (column : string) (series : Series) (tv : list value)
      (tdf : DataFrame) :
  df_get (column +:+ "_original") (write_back column series tv tdf)
  = match df_get (column +:+ "_original") tdf with
    | Some x => Some x
    | None => Some series
    end.
Proof.
  unfold write_back. set (t1 := loc_set _ _ _ _).
  assert (df_get (column +:+ "_original") t1 = df_get (column +:+ "_original") tdf)
    as H1.
  { unfold t1. apply df_get_loc_set_ne. intros E. symmetry in E.
    now apply original_label_fresh in E. }
  unfold has_column. rewrite <- H1.
  destruct (df_get (column +:+ "_original") t1) eqn:E; [exact E|].
  apply df_get_set_eq.
Qed.

Lemma write_back_other (column : string) (series : Series) (tv : list value)
      (tdf : DataFrame) (name : string) :
  name <> column -> name <> column +:+ "_original" ->
  df_get name (write_back column series tv tdf) = df_get name tdf.
Proof.
  intros Hne Hne'. unfold write_back. set (t1 := loc_set _ _ _ _).
  assert (df_get name t1 = df_get name tdf) as H1
      by (unfold t1; rewrite df_get_loc_set_ne; auto).
  destruct (has_column (column +:+ "_original") t1); [exact H1|].
  rewrite df_get_set_ne; auto.
Qed.

Lemma write_back_well_formed (column : string) (series : Series) (tv : list value)
      (tdf : DataFrame) :
  length (values series) = nrows tdf -> well_formed tdf ->
  well_formed (write_back column series tv tdf)
  /\ nrows (write_back column series tv tdf) = nrows tdf.
Proof.
  intros Hlen Hwf. unfold write_back. set (t1 := loc_set _ _ _ _).
  assert (well_formed t1) as Hwf1 by (apply well_formed_loc_set; exact Hwf).
  assert (nrows t1 = nrows tdf) as Hn1
      by (unfold t1, loc_set; destruct (df_get column tdf); reflexivity).
  destruct (has_column (column +:+ "_original") t1); [auto|].
  split; [|exact Hn1]. apply well_formed_set; congruence.
Qed.

Lemma well_formed_column_length (df : DataFrame) (name : string) (s : Series) :
  well_formed df -> df_get name df = Some s -> length (values s) = nrows df.
Proof.
  intros [_ Hall] Hs.
  destruct (assoc_get_Forall _ _ _ _ Hall Hs) as [k Hk]. exact Hk.
Qed.

End TranslateDataframe.

(** ** TextTranslator: the claims *)

Section TranslatorClaims.
Context {S : Type} `{TranslationService S}.
Import Translator.

(** C2, as amended. [translate_text] returns its argument itself, leaving
    the client and the widgets untouched, when the argument is falsy or
    absent, or when its stringified, trimmed form is empty or shorter than
    three characters. For a truthy, present value whose trimmed form has at
    least three characters (exactly three included) the translation step
    runs on the trimmed text; when the client is up it is called once, with
    that text. *)
Theorem translate_text_threshold (text : value) (target source : string)
        (w : world S) :
  (negb (truthy text) || isna text = true
   \/ strip (str text) = ""
   \/ (String.length (strip (str text)) < 3)%nat ->
   translate_text text target source w = (inr text, w))
  /\ (truthy text = true -> isna text = false ->
      (3 <= String.length (strip (str text)))%nat ->
      translate_text text target source w
      = translation_path (strip (str text)) target source w
      /\ forall c, translator w = Some c -> google_available w = true ->
           translator (snd (translate_text text target source w))
           = Some (snd (svc_translate c (strip (str text)) target source))).
Proof.
  split.
  - intros [Hc|[Hc|Hc]].
    + apply translate_text_passes. now left.
    + apply translate_text_passes. right. rewrite Hc. simpl. lia.
    + apply translate_text_passes. now right.
  - intros Ht Hn Hl. rewrite (translate_text_translates _ _ _ _ Ht Hn Hl).
    split; [reflexivity|]. intros c Hc Ha.
    rewrite (translation_path_ready _ _ _ _ c Hc Ha).
    destruct (svc_translate c (strip (str text)) target source) as [[e|r] c'];
      reflexivity.
Qed.

(** C3, as amended. For a selected column that the table has, and whose
    label followed by "_original" is not already a column of the table,
    [translate_dataframe] returns a table in which the column of that
    derived label is the column as it was before translation. *)
Theorem translate_dataframe_keeps_original (df : DataFrame) (columns : list string)
        (target : string) (w : world S) (col : string) (series : Series) :
  In col columns -> df_get col df = Some series ->
  has_column (col +:+ "_original") df = false ->
  exists df' w',
    translate_dataframe df columns target w = (inr df', w')
    /\ df_get (col +:+ "_original") df' = Some series.
Proof.
  intros Hin Hcol Hfresh.
  assert (df_get (col +:+ "_original") df = None) as Hnone
      by (unfold has_column in Hfresh;
          destruct (df_get (col +:+ "_original") df); congruence).
  apply (translate_dataframe_establish
           (fun t => df_get (col +:+ "_original") t = None
                     \/ df_get (col +:+ "_original") t = Some series)
           (fun t => df_get (col +:+ "_original") t = Some series)
           df columns target w col series); auto.
  - intros column series' tv tdf Hc Hs [Hn|Hs'].
    + destruct (decide (column = col)) as [->|Hne].
      * right. rewrite write_back_original, Hn. congruence.
      * left. rewrite write_back_other; auto.
        -- intros E. congruence.
        -- intros E. apply append_cancel_r in E. congruence.
    + right. apply write_back_keeps; auto. intros E. congruence.
  - intros column series' tv tdf Hc Hs Hq.
    apply write_back_keeps; auto. intros E. congruence.
  - intros tv tdf [Hn|Hs']; rewrite write_back_original.
    + now rewrite Hn.
    + now rewrite Hs'.
Qed.

(** C9. On a well-formed table [translate_dataframe] returns a well-formed
    table with the same number of rows, in which every column of the input
    that is not selected is the column it was. *)
Theorem translate_dataframe_frame (df : DataFrame) (columns : list string)
        (target : string) (w : world S) :
  well_formed df ->
  exists df' w',
    translate_dataframe df columns target w = (inr df', w')
    /\ nrows df' = nrows df
    /\ well_formed df'
    /\ forall name s, ~ In name columns -> df_get name df = Some s ->
                      df_get name df' = Some s.
Proof.
  intros Hwf.
  destruct (translate_dataframe_invariant
              (fun t => nrows t = nrows df /\ well_formed t
                        /\ forall name s, ~ In name columns ->
                                          df_get name df = Some s ->
                                          df_get name t = Some s)
              df columns target w) as (df' & w' & E & Hn & Hw & Hf).
  - auto.
  - intros column series tv tdf Hc Hs Hlen (Hn & Hw & Hf).
    assert (length (values series) = nrows tdf) as Hl
        by (rewrite Hn; eapply well_formed_column_length; eauto).
    destruct (write_back_well_formed column series tv tdf Hl Hw) as [Hw' Hn'].
    split; [congruence|]. split; [exact Hw'|].
    intros name s Hnot Hget. apply write_back_keeps; auto.
    intros ->. contradiction.
  - exists df', w'. auto.
Qed.

(** C10, as amended. When the table already has a column labelled with a
    selected label followed by "_original", and that column is not itself
    selected, [translate_dataframe] returns it as it was: the source column
    is not copied over it. *)
Theorem translate_dataframe_existing_original (df : DataFrame)
        (columns : list string) (target : string) (w : world S)
        (col : string) (existing : Series) :
  In col columns ->
  df_get (col +:+ "_original") df = Some existing ->
  ~ In (col +:+ "_original") columns ->
  exists df' w',
    translate_dataframe df columns target w = (inr df', w')
    /\ df_get (col +:+ "_original") df' = Some existing.
Proof.
  intros Hin Hex Hnot.
  apply (translate_dataframe_invariant
           (fun t => df_get (col +:+ "_original") t = Some existing)); auto.
  intros column series tv tdf Hc Hs Hlen Hq.
  apply write_back_keeps; auto. intros E. rewrite E in Hnot. contradiction.
Qed.

End TranslatorClaims.

(** *** The translator on the sample tables *)

Lemma survey_well_formed : well_formed Samples.survey.
Proof.
  split.
  - apply NoDup_ListNoDup. repeat constructor; simpl; intuition discriminate.
  - repeat constructor.
Qed.

Lemma translate_text_threshold_witness :
  Translator.translate_text (VStr "Hi") "es" "auto" Samples.ready
  = (inr (VStr "Hi"), Samples.ready)
  /\ Translator.translate_text (VStr "Hey") "es" "auto" Samples.ready
     = Translator.translation_path "Hey" "es" "auto" Samples.ready.
Proof.
  split.
  - apply (proj1 (translate_text_threshold (VStr "Hi") "es" "auto" Samples.ready)).
    right. right. simpl. lia.
  - destruct (proj2 (translate_text_threshold (VStr "Hey") "es" "auto" Samples.ready))
      as [E _]; [reflexivity | reflexivity | simpl; lia | exact E].
Defined.

(** C2, as stated, fails on [False]: the value is present and prints as a
    text of five characters, yet it is returned as it is and the translation
    step does not run. *)
Lemma translate_text_False_passes :
  isna (VBool false) = false
  /\ (3 <= String.length (strip (str (VBool false))))%nat
  /\ Translator.translate_text (VBool false) "es" "auto" Samples.ready
     = (inr (VBool false), Samples.ready)
  /\ Translator.translate_text (VBool false) "es" "auto" Samples.ready
     <> Translator.translation_path (strip (str (VBool false))) "es" "auto"
          Samples.ready.
Proof.
  split; [reflexivity|]. split; [simpl; lia|]. split; [reflexivity|].
  intros E. apply (f_equal fst) in E. vm_compute in E. discriminate.
Qed.

Lemma translate_dataframe_keeps_original_witness :
  exists df' w',
    Translator.translate_dataframe Samples.plain_survey ["q"] "es" Samples.ready
    = (inr df', w')
    /\ df_get "q_original" df'
       = Some (Samples.text_column [VStr "hola"; VStr "adios"]).
Proof.
  apply (translate_dataframe_keeps_original Samples.plain_survey ["q"] "es"
           Samples.ready "q");
    [simpl; auto | reflexivity | reflexivity].
Defined.

(** C3, as stated, fails on a table that already has the column
    [q_original]: the column returned under that label is not the source
    column [q]. *)
Lemma translate_dataframe_original_taken :
  In "q" ["q"]
  /\ has_column "q" Samples.survey = true
  /\ ~ (exists df' w',
          Translator.translate_dataframe Samples.survey ["q"] "es" Samples.ready
          = (inr df', w')
          /\ option_map values (df_get "q_original" df')
             = option_map values (df_get "q" Samples.survey)).
Proof.
  split; [simpl; auto|]. split; [reflexivity|].
  intros (df' & w' & E & Hv).
  apply (f_equal fst) in E. vm_compute in E. injection E as <-.
  vm_compute in Hv. discriminate.
Qed.

Lemma translate_dataframe_frame_witness :
  exists df' w',
    Translator.translate_dataframe Samples.survey ["q"] "es" Samples.ready
    = (inr df', w')
    /\ nrows df' = 2
    /\ df_get "n" df' = Some {| dtype_of := DInt64; values := [VInt 1; VInt 2] |}.
Proof.
  destruct (translate_dataframe_frame Samples.survey ["q"] "es" Samples.ready
              survey_well_formed) as (df' & w' & E & Hn & _ & Hf).
  exists df', w'. split; [exact E|]. split; [exact Hn|].
  apply Hf; [simpl; intuition discriminate | reflexivity].
Defined.

Lemma translate_dataframe_existing_original_witness :
  exists df' w',
    Translator.translate_dataframe Samples.survey ["q"] "es" Samples.ready
    = (inr df', w')
    /\ df_get "q_original" df'
       = Some (Samples.text_column [VStr "kept"; VStr "too"]).
Proof.
  apply (translate_dataframe_existing_original Samples.survey ["q"] "es"
           Samples.ready "q");
    [simpl; auto | reflexivity | simpl; intuition discriminate].
Defined.

(** C10, as stated, fails when the column [q_original] is itself selected:
    its cells are translated like those of any selected column. *)
Lemma translate_dataframe_original_selected :
  In "q" ["q"; "q_original"]
  /\ has_column "q_original" Samples.survey = true
  /\ ~ (exists df' w',
          Translator.translate_dataframe Samples.survey ["q"; "q_original"] "es"
            Samples.ready = (inr df', w')
          /\ option_map values (df_get "q_original" df')
             = option_map values (df_get "q_original" Samples.survey)).
Proof.
  split; [simpl; auto|]. split; [reflexivity|].
  intros (df' & w' & E & Hv).
  apply (f_equal fst) in E. vm_compute in E. injection E as <-.
  vm_compute in Hv. discriminate.
Qed.

(** ** CSVAnalyzer: the classifier *)

Section Classifier.
Import Re Analyzer.

Lemma matches_a_pattern_existsb (patterns : list pattern) (text : string) :
  matches_a_pattern patterns text = existsb (fun p => search p text) patterns.
Proof.
  induction patterns as [|p ps IH]; simpl; [reflexivity|].
  rewrite IH. destruct (search p text); reflexivity.
Qed.

Lemma count_date_matches_filter (sample : list string) (n : nat) :
  count_date_matches sample n
  = (n + length (List.filter date_shaped sample))%nat.
Proof.
  revert n. induction sample as [|v sample IH]; intros n; [simpl; lia|].
  cbn [count_date_matches List.filter].
  rewrite IH, matches_a_pattern_existsb. fold (date_shaped v).
  destruct (date_shaped v); cbn [length]; lia.
Qed.

Lemma filter_map_str (l : list value) :
  length (List.filter date_shaped (List.map str l))
  = length (List.filter (fun v => date_shaped (str v)) l).
Proof.
  induction l as [|v l IH]; [reflexivity|].
  cbn [List.map List.filter].
  destruct (date_shaped (str v)); cbn [length]; now rewrite IH.
Qed.

Lemma take_min_length {A} (n : nat) (l : list A) :
  take (n `min` length l) l = take n l.
Proof.
  destruct (Nat.le_ge_cases n (length l)) as [Hle|Hge].
  - now rewrite Nat.min_l.
  - rewrite Nat.min_r by exact Hge. now rewrite !take_ge.
Qed.

(** [_contains_dates] on a series that is not empty, in closed form. *)
Lemma contains_dates_closed (series : list value) :
  series <> [] ->
  _contains_dates series
  = Some (length (take 100 series)
          <? 2 * length (List.filter (fun v => date_shaped (str v))
                                     (take 100 series)))%nat.
Proof.
  intros Hne. unfold _contains_dates.
  rewrite take_min_length, count_date_matches_filter, filter_map_str.
  rewrite length_take.
  destruct (Nat.eqb_spec (100 `min` length series) 0) as [E|_]; [|reflexivity].
  destruct series; [contradiction | simpl in E; lia].
Qed.

Lemma dropna_present (l : list value) (v : value) :
  In v (dropna l) <-> In v l /\ isna v = false.
Proof.
  unfold dropna. rewrite filter_In. rewrite negb_true_iff. reflexivity.
Qed.

Lemma length_eqb_0 {A} (l : list A) : l <> [] -> (length l =? 0)%nat = false.
Proof. destruct l; [contradiction | reflexivity]. Qed.

Context (parses_as_number : string -> bool).

(** The classifier on a column that has a present cell and whose storage
    type is neither numeric nor a date type. *)
Lemma detect_untyped (s : Series) :
  is_numeric_dtype (dtype_of s) = false ->
  is_datetime64_any_dtype (dtype_of s) = false ->
  dropna (values s) <> [] ->
  _detect_column_type parses_as_number s
  = if (length (take 100 (dropna (values s)))
        <? 2 * length (List.filter (fun v => date_shaped (str v))
                                   (take 100 (dropna (values s)))))%nat
    then Some "datetime"
    else if to_numeric_ok parses_as_number (dropna (values s))
         then Some "numeric" else Some "text".
Proof.
  intros Hn Hd Hne. unfold _detect_column_type.
  rewrite (length_eqb_0 _ Hne), Hn, Hd, (contains_dates_closed _ Hne).
  reflexivity.
Qed.

(** C1, as amended. A column whose storage type is numeric is classified
    [numeric] whatever its cells hold, provided one of them is present;
    when all of them are absent it is classified [empty]. *)
Theorem detect_numeric_dtype (s : Series) :
  is_numeric_dtype (dtype_of s) = true ->
  (dropna (values s) <> [] ->
   _detect_column_type parses_as_number s = Some "numeric")
  /\ (dropna (values s) = [] ->
      _detect_column_type parses_as_number s = Some "empty").
Proof.
  intros Hn. unfold _detect_column_type. split; intros Hv.
  - now rewrite (length_eqb_0 _ Hv), Hn.
  - now rewrite Hv.
Qed.

(** C5. A column with a present cell, whose storage type is neither numeric
    nor a date type, is classified [datetime] exactly when more than half
    of its first hundred present cells, stringified, match one of the three
    date patterns; the column of the three ISO dates is classified
    [datetime]. *)
Theorem detect_datetime_by_pattern (s : Series) :
  (is_numeric_dtype (dtype_of s) = false ->
   is_datetime64_any_dtype (dtype_of s) = false ->
   dropna (values s) <> [] ->
   (_detect_column_type parses_as_number s = Some "datetime" <-> mostly_dates s))
  /\ _detect_column_type parses_as_number
       {| dtype_of := DObject;
          values := [VStr "2021-01-01"; VStr "2021-02-01"; VStr "2021-03-01"] |}
     = Some "datetime".
Proof.
  split; [|reflexivity].
  intros Hn Hd Hne. rewrite (detect_untyped s Hn Hd Hne). unfold mostly_dates.
  destruct (Nat.ltb_spec
              (length (take 100 (dropna (values s))))
              (2 * length (List.filter (fun v => date_shaped (str v))
                                       (take 100 (dropna (values s)))))) as [Hlt|Hge].
  - tauto.
  - split; [|lia].
    destruct (to_numeric_ok parses_as_number (dropna (values s))); discriminate.
Qed.

Lemma search_here (p : pattern) (text : string) :
  match_here p text = true -> search p text = true.
Proof. intros E. destruct text; cbn [search]; now rewrite E. Qed.

Lemma timestamp_date_shaped (iso : string) :
  match_here iso_date iso = true -> date_shaped iso = true.
Proof.
  intros E. unfold date_shaped, date_patterns. cbn [existsb].
  apply orb_true_iff. left. apply search_here. exact E.
Qed.

Lemma filter_all {A} (f : A -> bool) (l : list A) :
  (forall x, In x l -> f x = true) -> List.filter f l = l.
Proof.
  induction l as [|x l IH]; intros Hall; [reflexivity|].
  cbn [List.filter]. rewrite (Hall x (or_introl eq_refl)), IH; [reflexivity|].
  intros y Hy. apply Hall. now right.
Qed.

(** The present cells of a well-formed column of a date type all print as
    dates. *)
Lemma datetime_column_mostly_dates (s : Series) :
  well_formed_series s = true ->
  is_datetime64_any_dtype (dtype_of s) = true ->
  dropna (values s) <> [] ->
  mostly_dates s.
Proof.
  intros Hwf Hd Hne. unfold mostly_dates. cbv zeta.
  rewrite filter_all.
  - destruct (dropna (values s)); [contradiction | simpl; lia].
  - intros x Hx. apply list_elem_of_In, elem_of_take in Hx.
    destruct Hx as (i & Hx & _). apply list_elem_of_lookup_2, list_elem_of_In in Hx.
    apply dropna_present in Hx. destruct Hx as [Hin Hna].
    unfold well_formed_series in Hwf. rewrite forallb_forall in Hwf.
    specialize (Hwf x Hin). apply andb_true_iff in Hwf. destruct Hwf as [Hh Hc].
    destruct (dtype_of s); try discriminate.
    destruct x; try discriminate. now apply timestamp_date_shaped.
Qed.

(** C6. In a well-formed column whose storage type is not numeric and whose
    sampled cells are not mostly date-shaped, one present cell that
    [pd.to_numeric] refuses makes the classifier answer [text]; so does the
    column of "12", "7" and "abc", when "abc" does not parse as a
    number. *)
Theorem detect_text_by_one_failure (s : Series) (v : value) :
  (well_formed_series s = true ->
   is_numeric_dtype (dtype_of s) = false ->
   ~ mostly_dates s ->
   In v (values s) -> isna v = false ->
   numeric_cell parses_as_number v = false ->
   _detect_column_type parses_as_number s = Some "text")
  /\ (parses_as_number "abc" = false ->
      _detect_column_type parses_as_number
        {| dtype_of := DObject; values := [VStr "12"; VStr "7"; VStr "abc"] |}
      = Some "text").
Proof.
  split.
  - intros Hwf Hn Hnot Hin Hna Hv.
    assert (In v (dropna (values s))) as Hin' by (apply dropna_present; auto).
    assert (dropna (values s) <> []) as Hne by (intros E; rewrite E in Hin'; destruct Hin').
    destruct (is_datetime64_any_dtype (dtype_of s)) eqn:Hd.
    + exfalso. apply Hnot. now apply datetime_column_mostly_dates.
    + rewrite (detect_untyped s Hn Hd Hne).
      destruct (Nat.ltb_spec
                  (length (take 100 (dropna (values s))))
                  (2 * length (List.filter (fun v => date_shaped (str v))
                                           (take 100 (dropna (values s))))))
        as [Hlt|_]; [contradiction|].
      destruct (to_numeric_ok parses_as_number (dropna (values s))) eqn:E;
        [|reflexivity].
      unfold to_numeric_ok in E. rewrite forallb_forall in E.
      specialize (E v Hin'). congruence.
  - intros Habc.
    rewrite detect_untyped; [|reflexivity|reflexivity|discriminate].
    cbn [dropna values List.filter isna negb]. 
    replace (to_numeric_ok parses_as_number [VStr "12"; VStr "7"; VStr "abc"])
      with false; [reflexivity|].
    unfold to_numeric_ok. cbn [forallb numeric_cell]. rewrite Habc.
    now rewrite !andb_false_r.
Qed.

End Classifier.

(** *** The classifier on the sample columns *)

Lemma detect_numeric_dtype_witness :
  Analyzer._detect_column_type Samples.decimal
    {| dtype_of := DInt64; values := [VInt 1; VInt 2] |} = Some "numeric".
Proof.
  apply (detect_numeric_dtype Samples.decimal
           {| dtype_of := DInt64; values := [VInt 1; VInt 2] |});
    [reflexivity | discriminate].
Defined.

(** C1, as stated, fails on a float column whose cells are all absent: its
    storage type is numeric and it is classified [empty]. *)
Lemma detect_numeric_dtype_all_absent :
  is_numeric_dtype (dtype_of Samples.blank_numbers) = true
  /\ Analyzer._detect_column_type Samples.decimal Samples.blank_numbers
     = Some "empty"
  /\ Analyzer._detect_column_type Samples.decimal Samples.blank_numbers
     <> Some "numeric".
Proof. repeat split. discriminate. Qed.

Lemma detect_datetime_by_pattern_witness :
  Analyzer._detect_column_type Samples.decimal Samples.iso_dates = Some "datetime"
  <-> Analyzer.mostly_dates Samples.iso_dates.
Proof.
  apply (proj1 (detect_datetime_by_pattern Samples.decimal Samples.iso_dates));
    [reflexivity | reflexivity | discriminate].
Defined.

Lemma detect_text_by_one_failure_witness :
  Analyzer._detect_column_type Samples.decimal Samples.mixed_numbers = Some "text".
Proof.
  apply (proj1 (detect_text_by_one_failure Samples.decimal Samples.mixed_numbers
                  (VStr "abc")));
    [reflexivity | reflexivity | | simpl; auto | reflexivity | reflexivity].
  unfold Analyzer.mostly_dates. vm_compute. lia.
Defined.

(** ** CSVAnalyzer: the report *)

Section Report.
Import Analyzer.

Lemma reads_only_ret {A} (a : A) : reads_only (mret a).
Proof. intros st. reflexivity. Qed.

Lemma reads_only_bind {A B} (m : R A) (k : A -> R B) :
  reads_only m -> (forall a, reads_only (k a)) -> reads_only (m ≫= k).
Proof.
  intros Hm Hk st. unfold mbind, R_bind.
  specialize (Hm st). destruct (m st) as [a st']. simpl in Hm.
  rewrite (Hk a st'). exact Hm.
Qed.

Lemma reads_only_append (line : string) : reads_only (append line).
Proof. intros st. reflexivity. Qed.

Lemma reads_only_lookup_key {A} (key : Analysis -> A) : reads_only (lookup_key key).
Proof. intros st. reflexivity. Qed.

Lemma reads_only_read_report : reads_only read_report.
Proof. intros st. reflexivity. Qed.

Lemma reads_only_for_each {A} (body : A -> R unit) (l : list A) :
  (forall x, reads_only (body x)) -> reads_only (for_each body l).
Proof.
  intros Hbody. induction l as [|x l IH]; simpl.
  - apply reads_only_ret.
  - apply reads_only_bind; auto.
Qed.

Lemma generate_report_body_reads_only : reads_only generate_report_body.
Proof.
  unfold generate_report_body.
  repeat first
    [ apply reads_only_bind; [|intros ?]
    | apply reads_only_append
    | apply reads_only_lookup_key
    | apply reads_only_read_report
    | apply reads_only_ret
    | apply reads_only_for_each; intros ?
    | match goal with |- reads_only (let '(_, _) := ?p in _) => destruct p end ].
Qed.

Lemma generate_report_leaves (a : Analysis) : snd (generate_report a) = a.
Proof.
  unfold generate_report.
  pose proof (generate_report_body_reads_only (Frame a [])) as Hr.
  destruct (generate_report_body (Frame a [])) as [text st]. exact Hr.
Qed.

Lemma for_each_lines {A} (body : A -> R unit) (g : A -> list string) (l : list A) :
  (forall x st, body x st = (tt, Frame (analysis st) (report st ++ g x))) ->
  forall st,
  for_each body l st
  = (tt, Frame (analysis st) (report st ++ concat (List.map g l))).
Proof.
  intros Hbody. induction l as [|x l IH]; intros st.
  - cbn. rewrite app_nil_r. now destruct st.
  - cbn [for_each List.map concat]. unfold mbind, R_bind.
    rewrite Hbody, IH. cbn [analysis report]. now rewrite <- app_assoc.
Qed.

Lemma for_each_append {A} (f : A -> string) (l : list A) (st : frame) :
  for_each (fun x => append (f x)) l st
  = (tt, Frame (analysis st) (report st ++ List.map f l)).
Proof.
  rewrite (for_each_lines _ (fun x => [f x])); [|reflexivity].
  do 2 f_equal. f_equal. induction l; cbn; congruence.
Qed.

(** [generate_report] returns the lines of [report_lines], joined by
    newlines. *)
Lemma generate_report_closed (a : Analysis) :
  generate_report a = (join newline (report_lines a), a).
Proof.
  unfold generate_report, generate_report_body.
  unfold mbind, R_bind, lookup_key, read_report, mret, R_ret.
  cbn [append analysis report].
  rewrite !for_each_append. cbn [analysis report].
  rewrite (for_each_lines _ entry_lines).
  - cbn [analysis report]. unfold report_lines.
    do 2 f_equal. cbn [app]. rewrite <- !app_assoc. reflexivity.
  - intros [col_name col_info] st. unfold append. cbn [analysis report].
    unfold entry_lines. cbn [fst snd]. rewrite <- !app_assoc. reflexivity.
Qed.

Lemma repeated_reports_closed (n : nat) (a : Analysis) :
  repeated_reports n a = List.repeat (join newline (report_lines a)) n.
Proof.
  induction n as [|n IH]; [reflexivity|].
  cbn [repeated_reports List.repeat]. rewrite generate_report_closed.
  now rewrite IH.
Qed.

Lemma report_lines_without_stats (a : Analysis) :
  report_lines (without_stats a) = report_lines a.
Proof.
  unfold report_lines.
  cbn [without_stats total_rows total_columns memory_usage total_missing_values
       text_columns numeric_columns date_columns columns].
  do 5 f_equal. rewrite List.map_map. reflexivity.
Qed.


End Report.


(** ** DataVisualizer: the correlation heatmap *)

Section Heatmap.
Import Visualizer.
Context {Matrix Trace : Type}.
Context (corr : DataFrame -> string + Matrix).
Context (imshow : Matrix -> string + list Trace).


End Heatmap.


(** * Further properties *)

(** ** How the translator changes the world *)

Lemma foldM_prefix {S A B} (P : list B -> A -> world S -> Prop)
      (body : A -> B -> M S A) (l : list B) :
  (forall pre x post a w, l = pre ++ x :: post -> P pre a w ->
     exists a' w', body a x w = (inr a', w') /\ P (pre ++ [x]) a' w') ->
  forall a w, P [] a w ->
  exists a' w', foldM body a l w = (inr a', w') /\ P l a' w'.
Proof.
  intros Hbody.
  assert (forall rest pre a w, l = pre ++ rest -> P pre a w ->
            exists a' w', foldM body a rest w = (inr a', w') /\ P l a' w') as Hgen.
  { induction rest as [|x rest IH]; intros pre a w El Hp; simpl.
    - rewrite app_nil_r in El. subst pre. unfold_M. eauto.
    - destruct (Hbody pre x rest a w El Hp) as (a1 & w1 & E1 & H1).
      rewrite (bind_returns _ _ _ _ _ E1).
      apply (IH (pre ++ [x])); [|exact H1].
      rewrite <- app_assoc. exact El. }
  intros a w Hp. now apply (Hgen l []).
Qed.

Section TranslatorWorld.
Context {S : Type} `{TranslationService S}.
Import Translator.

Lemma evolves_refl (w : world S) : evolves w w.
Proof.
  repeat split; auto. exists []. split; [now rewrite app_nil_r | constructor].
Qed.

Lemma is_translation_available_evolves (w w' : world S) :
  evolves w w' -> is_translation_available w = false ->
  is_translation_available w' = false.
Proof.
  intros (Hg & _ & Ht & _) Hu. unfold is_translation_available in *.
  rewrite (Ht Hu), Hg. exact Hu.
Qed.

Lemma evolves_trans (w1 w2 w3 : world S) :
  evolves w1 w2 -> evolves w2 w3 -> evolves w1 w3.
Proof.
  intros H12 H23.
  pose proof (is_translation_available_evolves _ _ H12) as Hu.
  destruct H12 as (Hg1 & Hs1 & Ht1 & n1 & He1 & Hn1).
  destruct H23 as (Hg2 & Hs2 & Ht2 & n2 & He2 & Hn2).
  repeat split; try congruence.
  - intros Hun. rewrite (Ht2 (Hu Hun)). auto.
  - exists (n1 ++ n2). split.
    + rewrite He2, He1. now rewrite app_assoc.
    + apply Forall_app. auto.
Qed.

Lemma emit_evolves (e : event) (w : world S) :
  displayable e ->
  exists w', emit e w = (inr tt, w') /\ evolves w w'.
Proof.
  intros He. eexists. split; [reflexivity|].
  repeat split; simpl; auto. exists [e]. split; [reflexivity|].
  constructor; [exact He | constructor].
Qed.

Lemma passes_through_cases (v : value) :
  passes_through v = true ->
  negb (truthy v) || isna v = true
  \/ (String.length (strip (str v)) < 3)%nat.
Proof.
  unfold passes_through. intros Hp. apply orb_true_iff in Hp.
  destruct Hp as [Hp|Hp]; [now left | right]. now apply Nat.ltb_lt.
Qed.

Lemma passes_through_false (v : value) :
  passes_through v = false ->
  truthy v = true /\ isna v = false
  /\ (3 <= String.length (strip (str v)))%nat.
Proof.
  unfold passes_through. intros Hp.
  apply orb_false_iff in Hp. destruct Hp as [Hp Hl].
  apply orb_false_iff in Hp. destruct Hp as [Ht Hn].
  apply negb_false_iff in Ht. apply Nat.ltb_ge in Hl. auto.
Qed.

(** One call of [translate_text]. *)
Lemma translate_text_step (v : value) (target source : string) (w : world S) :
  exists t w',
    translate_text v target source w = (inr t, w')
    /\ evolves w w' /\ translated_cell w v t.
Proof.
  destruct (passes_through v) eqn:Hp.
  - exists v, w. split; [|split].
    + apply translate_text_passes. now apply passes_through_cases.
    + apply evolves_refl.
    + split; [reflexivity|]. intros _. unfold marked. now rewrite Hp.
  - destruct (passes_through_false v Hp) as (Ht & Hn & Hl).
    rewrite (translate_text_translates _ _ _ _ Ht Hn Hl).
    destruct (is_translation_available w) eqn:Ha.
    + pose proof Ha as Hup. unfold is_translation_available in Ha.
      destruct (translator w) as [c|] eqn:Hc; [|discriminate].
      rewrite (translation_path_ready _ _ _ _ c Hc Ha).
      destruct (svc_translate c (strip (str v)) target source) as [[e|r] c'];
        eexists _, _; (split; [reflexivity|]);
        (split; [|split; intros Hx; congruence]).
      * repeat split; simpl; auto.
        -- intros Hx. congruence.
        -- eexists. split; [symmetry; apply app_assoc|]. repeat constructor.
      * repeat split; simpl; auto.
        -- intros Hx. congruence.
        -- eexists. split; [reflexivity|]. repeat constructor.
    + assert (translator w = None \/ google_available w = false) as Hu.
      { unfold is_translation_available in Ha.
        destruct (translator w); [now right | now left]. }
      rewrite (translation_path_unavailable _ _ _ _ Hu).
      eexists _, _. split; [reflexivity|]. split; [apply evolves_refl|].
      split; [congruence|]. intros _. unfold marked. now rewrite Hp.
Qed.

Lemma blank_passes_through (v : value) :
  isna v || String.eqb (strip (str v)) "" = true -> passes_through v = true.
Proof.
  intros Hb. unfold passes_through. apply orb_true_iff in Hb.
  destruct Hb as [Hb|Hb].
  - rewrite Hb. now rewrite orb_true_r.
  - apply String.eqb_eq in Hb. rewrite Hb. simpl. now rewrite orb_true_r.
Qed.

(** The loop over the cells of one column. *)
Lemma translate_values_step (total : nat) (target : string) (vals : list value) :
  (vals <> [] -> 0 < total)%nat ->
  forall (n : nat) (w : world S),
  exists out n' w',
    translate_values total target vals n w = (inr (out, n'), w')
    /\ evolves w w'
    /\ n' = (n + length vals)%nat
    /\ Forall2 (translated_cell w) vals out.
Proof.
  induction vals as [|v vals IH]; intros Htot n w.
  - exists [], n, w. split; [reflexivity|]. split; [apply evolves_refl|].
    split; [simpl; lia | constructor].
  - assert (0 < total)%nat as Hpos by (apply Htot; discriminate).
    cbn [translate_values].
    assert (exists t w1,
               (if isna v || String.eqb (strip (str v)) "" then mret v
                else translate_text v target "auto") w = (inr t, w1)
               /\ evolves w w1 /\ translated_cell w v t)
      as (t & w1 & E1 & Hev1 & Hc1).
    { destruct (isna v || String.eqb (strip (str v)) "") eqn:Hb.
      - exists v, w. split; [reflexivity|]. split; [apply evolves_refl|].
        split; [reflexivity|]. intros _. unfold marked.
        now rewrite (blank_passes_through v Hb).
      - apply translate_text_step. }
    rewrite (bind_returns _ _ _ _ _ E1).
    assert (exists w2,
               (if (Datatypes.S n mod 5 =? 0)%nat
                then emit (EvProgress (Datatypes.S n `min` total) total)
                else mret tt) w1 = (inr tt, w2) /\ evolves w1 w2)
      as (w2 & E2 & Hev2).
    { destruct (Datatypes.S n mod 5 =? 0)%nat.
      - apply emit_evolves. unfold displayable.
        split; [exact Hpos | apply Nat.le_min_r].
      - exists w1. split; [reflexivity | apply evolves_refl]. }
    rewrite (bind_returns _ _ _ _ _ E2).
    destruct (IH (fun _ => Hpos) (Datatypes.S n) w2)
      as (out & n' & w3 & E3 & Hev3 & Hn & Hall).
    rewrite (bind_returns _ _ _ _ _ E3).
    exists (t :: out), n', w3. split; [reflexivity|].
    pose proof (evolves_trans _ _ _ Hev1 Hev2) as Hev12.
    split; [exact (evolves_trans _ _ _ Hev12 Hev3)|].
    split; [simpl; lia|].
    constructor; [exact Hc1|].
    eapply Forall2_impl; [exact Hall|].
    intros x y [Hx1 Hx2]. split; [exact Hx1|].
    intros Hu. apply Hx2.
    now apply (is_translation_available_evolves w w2).
Qed.

Lemma translated_cell_evolves (w w1 : world S) (v t : value) :
  evolves w w1 -> translated_cell w1 v t -> translated_cell w v t.
Proof.
  intros Hev [H1 H2]. split; [exact H1|]. intros Hu. apply H2.
  now apply (is_translation_available_evolves w w1).
Qed.

Lemma list_sum_In (g : string -> nat) (l : list string) (x : string) :
  In x l -> (g x <= list_sum (List.map g l))%nat.
Proof.
  induction l as [|y l IH]; intros Hin; [destruct Hin|].
  simpl. destruct Hin as [->|Hin]; [lia|]. specialize (IH Hin). lia.
Qed.

Lemma total_cells_column (df : DataFrame) (columns : list string)
      (column : string) (series : Series) :
  In column columns -> df_get column df = Some series ->
  (length (dropna (values series)) <= total_cells df columns)%nat.
Proof.
  intros Hin Hget. unfold total_cells.
  pose proof (list_sum_In
                (fun col => match df_get col df with
                            | Some s => length (dropna (values s))
                            | None => 0%nat
                            end)
                (List.filter (fun col => has_column col df) columns) column)
    as Hle.
  simpl in Hle. rewrite Hget in Hle. apply Hle.
  apply filter_In. split; [exact Hin|]. unfold has_column. now rewrite Hget.
Qed.

(** One turn of the loop over the selected columns. *)
Lemma translate_column_step (df : DataFrame) (columns : list string)
      (target : string) (st : loop_state) (column : string) (w : world S) :
  In column columns ->
  exists st' w',
    translate_column df (total_cells df columns) target st column w = (inr st', w')
    /\ evolves w w' /\ column_turn df w column st st'.
Proof.
  intros Hin. unfold translate_column, column_turn.
  destruct (df_get column df) as [series|] eqn:Hget.
  - destruct (emit_evolves (EvStatus ("Translating column: " +:+ column)) w I)
      as (w1 & E1 & Hev1).
    rewrite (bind_returns _ _ _ _ _ E1).
    assert (exists ct w2,
               (if is_question_label column
                then translated_column_name ←
                       translate_text (VStr column) target "auto";
                     mret (<[column := translated_column_name]> (column_translations st))
                else mret (column_translations st)) w1 = (inr ct, w2)
               /\ evolves w1 w2
               /\ if is_question_label column
                  then exists t, translated_cell w (VStr column) t
                                 /\ ct = <[column := t]> (column_translations st)
                  else ct = column_translations st)
      as (ct & w2 & E2 & Hev2 & Hct).
    { destruct (is_question_label column).
      - destruct (translate_text_step (VStr column) target "auto" w1)
          as (t & w2 & E & Hev & Hc).
        rewrite (bind_returns _ _ _ _ _ E).
        eexists _, w2. split; [reflexivity|]. split; [exact Hev|].
        exists t. split; [|reflexivity].
        now apply (translated_cell_evolves w w1).
      - exists (column_translations st), w1.
        split; [reflexivity|]. split; [apply evolves_refl | reflexivity]. }
    rewrite (bind_returns _ _ _ _ _ E2).
    pose proof (evolves_trans _ _ _ Hev1 Hev2) as Hev12.
    destruct (translate_values_step (total_cells df columns) target
                (dropna (values series))) with (n := processed st) (w := w2)
      as (out & n' & w3 & E3 & Hev3 & Hn & Hall).
    { intros Hne. pose proof (total_cells_column df columns column series Hin Hget).
      destruct (dropna (values series)); [contradiction | simpl in *; lia]. }
    rewrite (bind_returns _ _ _ _ _ E3).
    eexists _, w3. split; [reflexivity|].
    split; [exact (evolves_trans _ _ _ Hev12 Hev3)|].
    exists out, ct. split; [|split].
    + eapply Forall2_impl; [exact Hall|]. intros x y Hxy.
      now apply (translated_cell_evolves w w2).
    + now rewrite Hn.
    + exact Hct.
  - destruct (emit_evolves
                (EvWarning ("Column '" +:+ column +:+ "' not found in DataFrame"))
                w I) as (w1 & E1 & Hev1).
    rewrite (bind_returns _ _ _ _ _ E1).
    exists st, w1. split; [reflexivity|]. split; [exact Hev1 | reflexivity].
Qed.

(** The rule of the loop: a property of the loop variables that holds before
    the first turn, and that every turn carries from the columns done so far
    to one more, holds of the variables [translate_dataframe] ends with. *)
Lemma translate_dataframe_rule (P : list string -> loop_state -> Prop)
      (df : DataFrame) (columns : list string) (target : string) (w : world S) :
  columns <> [] ->
  P [] (LoopState df 0 ∅) ->
  (forall pre column post st st',
      columns = pre ++ column :: post -> P pre st ->
      column_turn df w column st st' -> P (pre ++ [column]) st') ->
  exists st w',
    translate_dataframe df columns target w = (inr (translated_df st), w')
    /\ P columns st /\ finished w w' st.
Proof.
  intros Hne H0 Hstep. unfold translate_dataframe.
  destruct columns as [|c0 columns0] eqn:Ecols; [contradiction|].
  rewrite <- Ecols in *. clear Ecols Hne.
  destruct (emit_evolves (EvProgress 0 1) w) as (w0 & E0 & Hev0);
    [simpl; lia|].
  rewrite (bind_returns _ _ _ _ _ E0).
  destruct (foldM_prefix (fun pre st w1 => P pre st /\ evolves w w1)
              (translate_column df (total_cells df columns) target) columns)
    with (a := LoopState df 0 ∅) (w := w0) as (st & w1 & E1 & HP & Hev1).
  - intros pre x post a w1 El [Hp Hev].
    destruct (translate_column_step df columns target a x w1)
      as (st' & w2 & E & Hev' & Hturn).
    { rewrite El. apply in_or_app. right. now left. }
    exists st', w2. split; [exact E|]. split.
    + apply (Hstep pre x post a st' El Hp).
      unfold column_turn in *. destruct (df_get x df); [|exact Hturn].
      destruct Hturn as (tv & ct & Hall & Hst & Hct).
      exists tv, ct. split; [|split; [exact Hst|]].
      * eapply Forall2_impl; [exact Hall|]. intros a1 a2 Ha.
        now apply (translated_cell_evolves w w1).
      * destruct (is_question_label x); [|exact Hct].
        destruct Hct as (t & Ht & Hct). exists t. split; [|exact Hct].
        now apply (translated_cell_evolves w w1).
    + exact (evolves_trans _ _ _ Hev Hev').
  - split; [exact H0 | exact Hev0].
  - rewrite (bind_returns _ _ _ _ _ E1).
    exists st. eexists. split; [reflexivity|]. split; [exact HP|].
    destruct Hev1 as (Hg & Hs & Ht & new & He & Hnew).
    unfold finished. simpl. repeat split; auto.
    + exists (new ++ [EvProgress 1 1; EvStatus "Translation completed!";
                      EvSleep 1000; EvEmpty; EvEmpty]).
      split.
      * rewrite He. rewrite <- !app_assoc. reflexivity.
      * apply Forall_app. split; [exact Hnew|].
        repeat constructor.
    + now rewrite Hs.
Qed.

End TranslatorWorld.

(** ** The failure modes of [translate_text] and the loop over the cells *)

Section TranslateTextFailure.
Context {S : Type} `{TranslationService S}.
Import Translator.

Lemma translate_text_available (v : value) (target source : string) (w : world S) :
  is_translation_available (snd (translate_text v target source w))
  = is_translation_available w.
Proof.
  destruct (passes_through v) eqn:Hp.
  - rewrite translate_text_passes by (now apply passes_through_cases).
    reflexivity.
  - destruct (passes_through_false v Hp) as (Ht & Hn & Hl).
    rewrite (translate_text_translates _ _ _ _ Ht Hn Hl).
    destruct (translator w) as [c|] eqn:Hc.
    + destruct (google_available w) eqn:Ha.
      * rewrite (translation_path_ready _ _ _ _ c Hc Ha).
        unfold is_translation_available at 2. rewrite Hc, Ha.
        destruct (svc_translate c (strip (str v)) target source) as [[e|r] c'];
          reflexivity.
      * rewrite translation_path_unavailable by auto. reflexivity.
    + rewrite translation_path_unavailable by auto. reflexivity.
Qed.

(** One turn of the loop over the cells, up to the cell it appends. *)
Lemma translate_cell_returns (cell : value) (target : string) (w : world S) :
  exists t w',
    translate_cell cell target w = (inr t, w')
    /\ is_translation_available w' = is_translation_available w.
Proof.
  unfold translate_cell.
  destruct (isna cell || String.eqb (strip (str cell)) "").
  - exists cell, w. split; reflexivity.
  - destruct (translate_text_returns cell target "auto" w) as (t & w' & E).
    exists t, w'. split; [exact E|].
    pose proof (translate_text_available cell target "auto" w) as Ha.
    now rewrite E in Ha.
Qed.

Lemma translate_cell_unavailable (cell : value) (target : string) (w : world S) :
  is_translation_available w = false ->
  translate_cell cell target w = (inr (marked cell), w).
Proof.
  intros Hu. unfold translate_cell.
  destruct (isna cell || String.eqb (strip (str cell)) "") eqn:Hb.
  - unfold marked. now rewrite (blank_passes_through cell Hb).
  - destruct (translate_text_step cell target "auto" w)
      as (t & w' & E & _ & _ & Hm).
    assert (translator w = None \/ google_available w = false) as Hd.
    { unfold is_translation_available in Hu.
      destruct (translator w); [now right | now left]. }
    rewrite (Hm Hu) in E. rewrite E. f_equal.
    unfold marked in *. destruct (passes_through cell) eqn:Hp.
    + rewrite translate_text_passes in E by (now apply passes_through_cases).
      congruence.
    + destruct (passes_through_false cell Hp) as (Ht & Hn & Hl).
      rewrite (translate_text_translates _ _ _ _ Ht Hn Hl) in E.
      rewrite (translation_path_unavailable _ _ _ _ Hd) in E. congruence.
Qed.

(** The loop over the cells, one turn unrolled. *)
Lemma translate_values_turn (total : nat) (target : string) (cell : value)
      (rest : list value) (n : nat) (w w1 : world S) (t : value) :
  translate_cell cell target w = (inr t, w1) ->
  translate_values total target (cell :: rest) n w
  = ('(out, n') ←
       translate_values total target rest (Datatypes.S n);
     mret (t :: out, n'))
      (if (Datatypes.S n mod 5 =? 0)%nat
       then World (translator w1) (google_available w1)
                  (events w1 ++ [EvProgress (Datatypes.S n `min` total) total])
                  (session_column_translations w1)
       else w1).
Proof.
  intros E. cbn [translate_values]. unfold translate_cell in E.
  rewrite (bind_returns _ _ _ _ _ E).
  destruct (Datatypes.S n mod 5 =? 0)%nat; reflexivity.
Qed.

(** What the loop over the cells of a column does, cell by cell. *)
Lemma translate_values_turns (total : nat) (target : string) (cells : list value) :
  forall (n : nat) (w : world S),
  exists out n' w',
    translate_values total target cells n w = (inr (out, n'), w')
    /\ length out = length cells
    /\ n' = (n + length cells)%nat
    /\ is_translation_available w' = is_translation_available w
    /\ forall i cell, cells !! i = Some cell ->
         exists out_i n_i w_i t w_i',
           translate_values total target (take i cells) n w
           = (inr (out_i, n_i), w_i)
           /\ is_translation_available w_i = is_translation_available w
           /\ translate_cell cell target w_i = (inr t, w_i')
           /\ out !! i = Some t.
Proof.
  induction cells as [|c rest IH]; intros n w.
  - exists [], n, w. split; [reflexivity|]. split; [reflexivity|].
    split; [simpl; lia|]. split; [reflexivity|].
    intros i cell Hi. rewrite lookup_nil in Hi. discriminate.
  - destruct (translate_cell_returns c target w) as (t & w1 & E1 & Ha1).
    set (w2 := if (Datatypes.S n mod 5 =? 0)%nat
               then World (translator w1) (google_available w1)
                      (events w1 ++ [EvProgress (Datatypes.S n `min` total) total])
                      (session_column_translations w1)
               else w1).
    assert (is_translation_available w2 = is_translation_available w) as Ha2.
    { rewrite <- Ha1. unfold w2.
      destruct (Datatypes.S n mod 5 =? 0)%nat; reflexivity. }
    destruct (IH (Datatypes.S n) w2) as (out & n' & w3 & E3 & Hlen & Hn & Ha3 & Hidx).
    exists (t :: out), n', w3. split; [|split; [|split; [|split]]].
    + rewrite (translate_values_turn _ _ _ _ _ _ _ _ E1). fold w2.
      now rewrite (bind_returns _ _ _ _ _ E3).
    + simpl. now rewrite Hlen.
    + simpl. lia.
    + congruence.
    + intros [|j] cell Hi.
      * injection Hi as <-. exists [], n, w, t, w1.
        split; [reflexivity|]. split; [reflexivity|]. split; [exact E1|].
        reflexivity.
      * destruct (Hidx j cell Hi) as (out_j & n_j & w_j & t' & w_j' & Ej & Haj & Ec & Ho).
        exists (t :: out_j), n_j, w_j, t', w_j'.
        split; [|split; [congruence | split; [exact Ec | exact Ho]]].
        cbn [take]. rewrite (translate_values_turn _ _ _ _ _ _ _ _ E1). fold w2.
        now rewrite (bind_returns _ _ _ _ _ Ej).
Qed.


End TranslateTextFailure.



(** ** [translate_dataframe]: what the cells, the labels and the session
    become *)

Lemma loc_assign_Forall2 (R : value -> value -> Prop) (l new cur : list value) :
  Forall2 R (dropna l) new ->
  Forall2 (fun v o => isna v = true -> R v o) l cur ->
  Forall2 R l (loc_assign (notna l) new cur).
Proof.
  revert new cur. induction l as [|v l IH]; intros new cur Hnew Hcur.
  - inversion Hcur. subst. constructor.
  - inversion Hcur as [|v0 o l0 cur' Hvo Hrest]. subst.
    cbn [notna List.map loc_assign]. cbn [dropna List.filter] in Hnew.
    destruct (isna v) eqn:Hv; cbn [negb] in *.
    + constructor; [now apply Hvo | now apply IH].
    + inversion Hnew as [|v1 n l1 new' Hvn Hrest']. subst.
      constructor; [exact Hvn | now apply IH].
Qed.

Lemma Forall2_eq_map (f : value -> value) (l out : list value) :
  Forall2 (fun v o => o = f v) l out -> out = List.map f l.
Proof. induction 1; simpl; congruence. Qed.

Lemma has_column_In (name : string) (df : DataFrame) :
  has_column name df = true <-> In name (column_names df).
Proof.
  unfold has_column, df_get, column_names.
  pose proof (assoc_get_None name (cols df)) as Hn.
  destruct (assoc_get name (cols df)).
  - split; [|reflexivity]. intros _.
    destruct (in_dec string_dec name (List.map fst (cols df))) as [Hi|Hi];
      [exact Hi|]. apply Hn in Hi. discriminate.
  - split; [discriminate|]. intros Hi. now apply Hn in Hi.
Qed.

Section TranslateDataframeMore.
Context {S : Type} `{TranslationService S}.
Import Translator.

Lemma write_back_self (column : string) (series : Series) (tv : list value)
      (tdf : DataFrame) (cur : Series) :
  df_get column tdf = Some cur ->
  df_get column (write_back column series tv tdf)
  = Some {| dtype_of := upcast (dtype_of cur) tv;
            values := loc_assign (notna (values series)) tv (values cur) |}.
Proof.
  intros Hcur. unfold write_back.
  assert (df_get column (loc_set (notna (values series)) column tv tdf)
          = Some {| dtype_of := upcast (dtype_of cur) tv;
                    values := loc_assign (notna (values series)) tv (values cur) |})
    as H1 by (unfold loc_set; rewrite Hcur; apply df_get_set_eq).
  destruct (has_column (column +:+ "_original") _); [exact H1|].
  rewrite df_get_set_ne; [exact H1|]. apply original_label_fresh.
Qed.

Lemma write_back_names (column : string) (series : Series) (tv : list value)
      (tdf : DataFrame) :
  has_column column tdf = true ->
  column_names (write_back column series tv tdf)
  = column_names tdf
    ++ (if has_column (column +:+ "_original") tdf then []
        else [column +:+ "_original"]).
Proof.
  intros Hc. unfold write_back.
  set (t1 := loc_set _ _ _ _).
  assert (column_names t1 = column_names tdf) as Hn1.
  { unfold t1, loc_set, has_column, df_get in *.
    destruct (assoc_get column (cols tdf)) eqn:E; [|discriminate].
    unfold column_names, df_set. simpl. rewrite assoc_set_names. now rewrite E. }
  assert (has_column (column +:+ "_original") t1
          = has_column (column +:+ "_original") tdf) as Hh.
  { unfold has_column, t1. rewrite df_get_loc_set_ne; [reflexivity|].
    intros E. symmetry in E. now apply original_label_fresh in E. }
  rewrite Hh. destruct (has_column (column +:+ "_original") tdf) eqn:Ho.
  - now rewrite Hn1, app_nil_r.
  - unfold column_names, df_set. simpl. rewrite assoc_set_names.
    unfold has_column, df_get in Hh. rewrite <- Hh in Ho. unfold has_column, df_get in Ho.
    destruct (assoc_get (column +:+ "_original") (cols t1)); [discriminate|].
    fold (column_names t1). now rewrite Hn1.
Qed.

(** X1. Whatever the client does, [translate_dataframe] returns every column
    of the input with as many cells as it had, and a cell that passes through
    (falsy, absent, or shorter than three characters once trimmed) is
    returned as it was, at its row. *)
Theorem translate_dataframe_keeps_passing_cells (df : DataFrame)
        (columns : list string) (target : string) (w : world S)
        (name : string) (series : Series) :
  df_get name df = Some series ->
  exists df' w' cur,
    translate_dataframe df columns target w = (inr df', w')
    /\ df_get name df' = Some cur
    /\ Forall2 (fun v o => passes_through v = true -> o = v)
               (values series) (values cur).
Proof.
  intros Hget.
  assert (Forall2 (fun v o : value => passes_through v = true -> o = v)
                  (values series) (values series)) as Hid
      by (apply Forall2_same_length_lookup_2; [reflexivity|];
          intros i x y Hx Hy _; congruence).
  destruct columns as [|c0 columns0] eqn:Ecols.
  { exists df, w, series. auto. }
  rewrite <- Ecols. assert (columns <> []) as Hne by (rewrite Ecols; discriminate).
  clear Ecols.
  destruct (translate_dataframe_rule
              (fun _ st => exists cur,
                   df_get name (translated_df st) = Some cur
                   /\ Forall2 (fun v o => passes_through v = true -> o = v)
                              (values series) (values cur))
              df columns target w Hne) as (st & w' & E & (cur & Hc & Hall) & _).
  - exists series. auto.
  - intros pre column post st st' _ (cur & Hc & Hall) Hturn.
    unfold column_turn in Hturn.
    destruct (df_get column df) as [sx|] eqn:Hx; [|subst st'; eauto].
    destruct Hturn as (tv & ct & Htv & -> & _). cbn [translated_df].
    destruct (decide (column = name)) as [->|Hneq].
    + assert (sx = series) as -> by congruence.
      rewrite (write_back_self _ _ _ _ cur Hc). eexists. split; [reflexivity|].
      cbn [values]. apply loc_assign_Forall2.
      * eapply Forall2_impl; [exact Htv|]. intros v o [Hv _]. exact Hv.
      * eapply Forall2_impl; [exact Hall|]. intros v o Hv _. exact Hv.
    + exists cur. split; [|exact Hall]. apply write_back_keeps; auto.
  - exists (translated_df st), w', cur. auto.
Qed.

(** X2. When the service is unavailable [translate_dataframe] does not touch
    the client, and every selected column of the input comes back as the same
    column with each cell marked: a cell that passes through is itself, any
    other is its trimmed text behind "[Translation unavailable] ". *)
Theorem translate_dataframe_unavailable (df : DataFrame) (columns : list string)
        (target : string) (w : world S) (col : string) (series : Series) :
  is_translation_available w = false ->
  In col columns -> df_get col df = Some series ->
  exists df' w' cur,
    translate_dataframe df columns target w = (inr df', w')
    /\ translator w' = translator w
    /\ df_get col df' = Some cur
    /\ values cur = List.map marked (values series).
Proof.
  intros Hun Hin Hget.
  assert (columns <> []) as Hne by (intros E; rewrite E in Hin; destruct Hin).
  destruct (translate_dataframe_rule
              (fun pre st => exists cur,
                   df_get col (translated_df st) = Some cur
                   /\ Forall2 (fun v o => isna v = true -> o = marked v)
                              (values series) (values cur)
                   /\ (In col pre -> values cur = List.map marked (values series)))
              df columns target w Hne)
    as (st & w' & E & (cur & Hc & _ & Hdone) & (_ & Ht & _)).
  - exists series. split; [exact Hget|]. split; [|intros []].
    apply Forall2_same_length_lookup_2; [reflexivity|].
    intros i x y Hx Hy Hna. assert (x = y) as -> by congruence.
    unfold marked, passes_through. rewrite Hna. now rewrite orb_true_r.
  - intros pre column post st st' _ (cur & Hc & Hnull & Hdone) Hturn.
    unfold column_turn in Hturn.
    destruct (df_get column df) as [sx|] eqn:Hx.
    + destruct Hturn as (tv & ct & Htv & -> & _). cbn [translated_df].
      destruct (decide (column = col)) as [->|Hneq].
      * assert (sx = series) as -> by congruence.
        rewrite (write_back_self _ _ _ _ cur Hc). eexists. split; [reflexivity|].
        cbn [values].
        assert (Forall2 (fun v o => o = marked v) (values series)
                        (loc_assign (notna (values series)) tv (values cur))) as Hm.
        { apply loc_assign_Forall2; [|exact Hnull].
          eapply Forall2_impl; [exact Htv|]. intros v o [_ Hv]. now apply Hv. }
        split.
        -- eapply Forall2_impl; [exact Hm|]. intros v o Hv _. exact Hv.
        -- intros _. now apply Forall2_eq_map.
      * exists cur. split; [apply write_back_keeps; auto|]. split; [exact Hnull|].
        intros Hi. apply Hdone. apply in_app_or in Hi.
        destruct Hi as [Hi|[Hi|[]]]; [exact Hi | congruence].
    + subst st'. exists cur. split; [exact Hc|]. split; [exact Hnull|].
      intros Hi. apply Hdone. apply in_app_or in Hi.
      destruct Hi as [Hi|[Hi|[]]]; [exact Hi | congruence].
  - exists (translated_df st), w', cur. auto.
Qed.

(** The labels of the table returned: those of the input, then the labels
    added. *)
Lemma translate_dataframe_adds_labels (df : DataFrame) (columns : list string)
      (target : string) (w : world S) :
  exists df' w' added,
    translate_dataframe df columns target w = (inr df', w')
    /\ column_names df' = column_names df ++ added
    /\ Forall (fun a => exists c, In c columns /\ has_column c df = true
                                  /\ a = c +:+ "_original") added.
Proof.
  destruct columns as [|c0 columns0] eqn:Ecols.
  { exists df, w, []. split; [reflexivity|]. split; [now rewrite app_nil_r|constructor]. }
  rewrite <- Ecols. assert (columns <> []) as Hne by (rewrite Ecols; discriminate).
  clear Ecols.
  destruct (translate_dataframe_rule
              (fun pre st => exists added,
                   column_names (translated_df st) = column_names df ++ added
                   /\ Forall (fun a => exists c, In c columns /\ has_column c df = true
                                                 /\ a = c +:+ "_original") added)
              df columns target w Hne) as (st & w' & E & (added & Hn & Ha) & _).
  - exists []. split; [now rewrite app_nil_r | constructor].
  - intros pre column post st st' El (added & Hn & Ha) Hturn.
    unfold column_turn in Hturn.
    destruct (df_get column df) as [sx|] eqn:Hx; [|subst st'; eauto].
    destruct Hturn as (tv & ct & _ & -> & _). cbn [translated_df].
    assert (has_column column df = true) as Hin
        by (unfold has_column; now rewrite Hx).
    rewrite write_back_names.
    + rewrite Hn, <- app_assoc. eexists. split; [reflexivity|].
      apply Forall_app. split; [exact Ha|].
      destruct (has_column (column +:+ "_original") (translated_df st));
        constructor; [|constructor].
      exists column. split; [|auto]. rewrite El. apply in_or_app. right. now left.
    + apply has_column_In. rewrite Hn. apply in_or_app. left.
      now apply has_column_In.
  - exists (translated_df st), w', added. auto.
Qed.

(** X3. [translate_dataframe] never drops, renames or reorders a column: the
    labels of the table returned are the labels of the input, in their
    order, followed by labels it added, and every label it adds is the label
    of a selected column of the input followed by "_original". *)
Theorem translate_dataframe_labels (df : DataFrame) (columns : list string)
        (target : string) (w : world S) :
  exists df' w' added,
    translate_dataframe df columns target w = (inr df', w')
    /\ column_names df' = column_names df ++ added
    /\ Forall (fun a => exists c, In c columns /\ has_column c df = true
                                  /\ a = c +:+ "_original") added
    /\ forall c, has_column c df = true -> has_column c df' = true.
Proof.
  destruct (translate_dataframe_adds_labels df columns target w)
    as (df' & w' & added & E & Hn & Ha).
  exists df', w', added. repeat (split; [assumption|]).
  intros c Hc. apply has_column_In. rewrite Hn. apply in_or_app. left.
  now apply has_column_In.
Qed.

End TranslateDataframeMore.

Section TranslateDataframeSession.
Context {S : Type} `{TranslationService S}.
Import Translator.

(** X4. After a run of [translate_dataframe] on a selection that is not
    empty the session holds a dictionary of label translations. It has an
    entry for every selected label of the table that looks like a question,
    every entry of it is such a label or was in the session before the run,
    and an earlier entry for any other label is kept. *)
Theorem translate_dataframe_records_labels (df : DataFrame)
        (columns : list string) (target : string) (w : world S) :
  columns <> [] ->
  exists df' w' recorded,
    translate_dataframe df columns target w = (inr df', w')
    /\ session_column_translations w' = Some recorded
    /\ (forall k, In k columns -> is_question_label k = true ->
                  has_column k df = true -> is_Some (recorded !! k))
    /\ (forall k v, recorded !! k = Some v ->
          (In k columns /\ is_question_label k = true /\ has_column k df = true)
          \/ exists old, session_column_translations w = Some old
                         /\ old !! k = Some v)
    /\ (forall old k v,
          session_column_translations w = Some old -> old !! k = Some v ->
          ~ (In k columns /\ is_question_label k = true /\ has_column k df = true) ->
          recorded !! k = Some v).
Proof.
  intros Hne.
  destruct (translate_dataframe_rule
              (fun pre st => forall k,
                   is_Some (column_translations st !! k)
                   <-> In k pre /\ is_question_label k = true
                       /\ has_column k df = true)
              df columns target w Hne) as (st & w' & E & HP & (_ & _ & _ & Hs)).
  - intros k. cbn [column_translations]. rewrite lookup_empty. split.
    + intros [x Hx]. discriminate.
    + intros [[] _].
  - intros pre column post st st' _ HP Hturn k.
    unfold column_turn in Hturn. rewrite in_app_iff. cbn [In].
    destruct (df_get column df) as [sx|] eqn:Hx.
    + destruct Hturn as (tv & ct & _ & -> & Hct). cbn [column_translations].
      assert (has_column column df = true) as Hh
          by (unfold has_column; now rewrite Hx).
      destruct (is_question_label column) eqn:Hq.
      * destruct Hct as (t & _ & ->). rewrite lookup_insert_is_Some, HP.
        split.
        -- intros [<-|[_ Hk]]; [tauto|tauto].
        -- intros [[Hk|[<-|[]]] [Hkq Hkh]].
           ++ destruct (decide (column = k)); [now left | right; tauto].
           ++ now left.
      * subst ct. rewrite HP. split; [tauto|].
        intros [[Hk|[<-|[]]] [Hkq Hkh]]; [tauto | congruence].
    + subst st'. rewrite HP. split; [tauto|].
      intros [[Hk|[<-|[]]] [Hkq Hkh]]; [tauto|].
      unfold has_column in Hkh. rewrite Hx in Hkh. discriminate.
  - exists (translated_df st), w'. eexists. split; [exact E|].
    split; [exact Hs|]. split; [|split].
    + intros k Hk Hq Hh.
      assert (is_Some (column_translations st !! k)) as [v Hv] by (apply HP; auto).
      destruct (session_column_translations w) as [old|].
      * exists v. apply lookup_union_Some_raw. now left.
      * now exists v.
    + intros k v Hv. destruct (session_column_translations w) as [old|].
      * apply lookup_union_Some_raw in Hv. destruct Hv as [Hv|[_ Hv]].
        -- left. apply HP. now exists v.
        -- right. now exists old.
      * left. apply HP. now exists v.
    + intros old k v Hold Hk Hnot. rewrite Hold.
      apply lookup_union_Some_raw. right. split; [|exact Hk].
      destruct (column_translations st !! k) eqn:Hc; [|reflexivity].
      exfalso. apply Hnot. apply HP. eauto.
Qed.

(** X5. [translate_dataframe] leaves the module flag as it was and only adds
    to what is shown; every progress report it issues is a fraction of a
    positive total, at most one. *)
Theorem translate_dataframe_shows_progress (df : DataFrame)
        (columns : list string) (target : string) (w : world S) :
  exists df' w' new,
    translate_dataframe df columns target w = (inr df', w')
    /\ google_available w' = google_available w
    /\ events w' = events w ++ new
    /\ Forall displayable new.
Proof.
  destruct columns as [|c0 columns0] eqn:Ecols.
  { exists df, w, []. split; [reflexivity|]. split; [reflexivity|].
    split; [now rewrite app_nil_r | constructor]. }
  rewrite <- Ecols. assert (columns <> []) as Hne by (rewrite Ecols; discriminate).
  clear Ecols.
  destruct (translate_dataframe_rule (fun _ _ => True) df columns target w Hne)
    as (st & w' & E & _ & (Hg & _ & (new & He & Hnew) & _)); auto.
  exists (translated_df st), w', new. auto.
Qed.

End TranslateDataframeSession.

(** ** [batch_translate] and [detect_language] *)

Section Batches.
Context {S : Type} `{TranslationService S}.
Import Translator.

Lemma translate_batch_returns (batch : list value) (target : string) :
  forall w : world S,
  exists out w',
    translate_batch batch target w = (inr out, w')
    /\ length out = length batch.
Proof.
  induction batch as [|v batch IH]; intros w.
  - exists [], w. auto.
  - cbn [translate_batch].
    destruct (translate_text_returns v target "auto" w) as (t & w1 & E1).
    rewrite (bind_returns _ _ _ _ _ E1).
    erewrite bind_returns by reflexivity.
    destruct (IH (snd (emit (EvSleep 100) w1))) as (out & w2 & E2 & Hlen).
    simpl in E2. rewrite (bind_returns _ _ _ _ _ E2).
    exists (t :: out), w2. split; [reflexivity | simpl; congruence].
Qed.

Lemma translate_batch_app (l1 l2 : list value) (target : string) :
  forall (w w1 w2 : world S) (r1 r2 : list value),
  translate_batch l1 target w = (inr r1, w1) ->
  translate_batch l2 target w1 = (inr r2, w2) ->
  translate_batch (l1 ++ l2) target w = (inr (r1 ++ r2), w2).
Proof.
  induction l1 as [|v l1 IH]; intros w w1 w2 r1 r2 E1 E2.
  - cbn in E1. injection E1 as <- <-. exact E2.
  - cbn [translate_batch app] in *.
    destruct (translate_text_returns v target "auto" w) as (t & wa & Ea).
    rewrite (bind_returns _ _ _ _ _ Ea) in E1.
    rewrite (bind_returns _ _ _ _ _ Ea).
    erewrite bind_returns in E1 by reflexivity.
    erewrite bind_returns by reflexivity.
    destruct (translate_batch_returns l1 target (snd (emit (EvSleep 100) wa)))
      as (out & wb & Eb & _).
    simpl in Eb. simpl in E1. rewrite (bind_returns _ _ _ _ _ Eb) in E1.
    cbn in E1. injection E1 as <- <-.
    simpl. rewrite (bind_returns _ _ _ _ _ (IH _ _ _ _ _ Eb E2)).
    reflexivity.
Qed.

Lemma batches_cover (texts : list value) (target : string) (size : nat) :
  (0 < size)%nat ->
  forall (m off : nat) (acc rs : list value) (w w' : world S),
  translate_batch (take (m * size) (drop (off * size) texts)) target w = (inr rs, w') ->
  foldM (fun translated_texts i =>
           batch_results ← translate_batch (take size (drop i texts)) target;
           mret (translated_texts ++ batch_results))
        acc (List.map (fun k => (k * size)%nat) (seq off m)) w
  = (inr (acc ++ rs), w').
Proof.
  intros Hpos. induction m as [|m IH]; intros off acc rs w w' E.
  - cbn in E. injection E as <- <-. cbn. now rewrite app_nil_r.
  - cbn [seq List.map foldM].
    set (l := drop (off * size) texts) in *.
    assert (take (Datatypes.S m * size) l
            = take size l ++ take (m * size) (drop (Datatypes.S off * size) texts))
      as Hsplit.
    { replace (Datatypes.S m * size)%nat with (size + m * size)%nat by lia.
      rewrite <- take_take_drop. unfold l. rewrite drop_drop.
      replace (off * size + size)%nat with (Datatypes.S off * size)%nat by lia.
      reflexivity. }
    rewrite Hsplit in E.
    destruct (translate_batch_returns (take size l) target w) as (r1 & w1 & E1 & _).
    destruct (translate_batch_returns
                (take (m * size) (drop (Datatypes.S off * size) texts)) target w1)
      as (r2 & w2 & E2 & _).
    rewrite (translate_batch_app _ _ _ _ _ _ _ _ E1 E2) in E.
    injection E as <- <-.
    rewrite (bind_returns _ _ _ _ _
               (bind_returns _ (fun batch_results => mret (acc ++ batch_results))
                             _ _ _ E1)).
    rewrite (IH (Datatypes.S off) (acc ++ r1) r2 w1 w2 E2).
    now rewrite app_assoc.
Qed.

(** X6. With a positive batch size [batch_translate] does what the loop over
    one batch does on the whole list: the texts are translated one after the
    other in their order, whatever the batch size, and one result is
    returned for every text. *)
Theorem batch_translate_sequential (texts : list value) (target : string)
        (batch_size : Z) (w : world S) :
  (0 < batch_size)%Z ->
  batch_translate texts target batch_size w = translate_batch texts target w
  /\ exists out w',
       batch_translate texts target batch_size w = (inr out, w')
       /\ length out = length texts.
Proof.
  intros Hpos.
  assert (batch_translate texts target batch_size w = translate_batch texts target w)
    as Heq.
  { unfold batch_translate. destruct texts as [|t0 texts0] eqn:Et; [reflexivity|].
    rewrite <- Et. clear Et.
    destruct (Z.eqb_spec batch_size 0) as [E0|_]; [lia|].
    unfold range_from_zero.
    destruct (Z.leb_spec batch_size 0) as [Hle|_]; [lia|].
    set (size := Z.to_nat batch_size).
    assert (0 < size)%nat as Hsize by (unfold size; lia).
    set (m := ((length texts + size - 1) / size)%nat).
    assert (length texts <= m * size)%nat as Hcover.
    { unfold m. pose proof (Nat.div_mod_eq (length texts + size - 1) size) as Hd.
      pose proof (Nat.mod_upper_bound (length texts + size - 1) size) as Hm.
      nia. }
    destruct (translate_batch_returns texts target w) as (out & w' & E & _).
    rewrite E.
    apply (batches_cover texts target size Hsize m 0 [] out w w').
    cbn [Nat.mul drop]. now rewrite take_ge by exact Hcover. }
  split; [exact Heq|]. rewrite Heq. apply translate_batch_returns.
Qed.

(** X7. On a list that is not empty, a batch size of zero makes
    [batch_translate] raise before any text is translated, and a negative
    batch size makes it return the empty list, again without translating
    anything. *)
Theorem batch_translate_no_batches (texts : list value) (target : string)
        (batch_size : Z) (w : world S) :
  texts <> [] ->
  (batch_size = 0%Z ->
   batch_translate texts target batch_size w
   = (inl "ValueError: range() arg 3 must not be zero", w))
  /\ ((batch_size < 0)%Z ->
      batch_translate texts target batch_size w = (inr [], w)).
Proof.
  intros Hne. unfold batch_translate.
  destruct texts as [|t0 texts0]; [contradiction|]. split.
  - intros ->. reflexivity.
  - intros Hneg. destruct (Z.eqb_spec batch_size 0) as [E0|_]; [lia|].
    unfold range_from_zero.
    destruct (Z.leb_spec batch_size 0) as [_|Hgt]; [reflexivity | lia].
Qed.

End Batches.

Section Detection.
Context {S : Type} `{TranslationService S} `{DetectionService S}.
Import Translator.

(** X8. [detect_language] never raises. It answers "unknown" without
    calling the client when the text is falsy, absent or blank, or when the
    service is unavailable; and it answers "unknown" when the call of the
    client raises. *)
Theorem detect_language_unknown (text : value) (w : world S) :
  returns (detect_language text w)
  /\ (negb (truthy text) || isna text = true
      \/ strip (str text) = ""
      \/ is_translation_available w = false ->
      detect_language text w = (inr "unknown", w))
  /\ (forall c e c',
        negb (truthy text) || isna text = false -> strip (str text) <> "" ->
        translator w = Some c -> google_available w = true ->
        svc_detect c (strip (str text)) = (inl e, c') ->
        fst (detect_language text w) = inr "unknown").
Proof.
  unfold detect_language.
  destruct (negb (truthy text) || isna text) eqn:Hg.
  { split; [eexists; reflexivity|]. split; [reflexivity|]. intros; discriminate. }
  destruct (String.eqb_spec (strip (str text)) "") as [Hb|Hb].
  { split; [eexists; reflexivity|]. split; [reflexivity|]. intros; contradiction. }
  unfold try_except, mbind, M_bind, bind, get_translator, get_available,
    call_detect, mret, M_ret, ret, returns.
  destruct (translator w) as [c|] eqn:Hc.
  - destruct (google_available w) eqn:Ha.
    + rewrite Hc. destruct (svc_detect c (strip (str text))) as [[e|r] c'] eqn:Hd.
      * split; [eexists; reflexivity|]. split.
        -- intros [Hx|[Hx|Hx]]; try discriminate; try contradiction.
           unfold is_translation_available in Hx. rewrite Hc, Ha in Hx. discriminate.
        -- intros; reflexivity.
      * split; [eexists; reflexivity|]. split.
        -- intros [Hx|[Hx|Hx]]; try discriminate; try contradiction.
           unfold is_translation_available in Hx. rewrite Hc, Ha in Hx. discriminate.
        -- intros c0 e c0' _ _ Hc0 _ Hd0. injection Hc0 as <-.
           rewrite Hd in Hd0. discriminate.
    + split; [eexists; reflexivity|]. split; [reflexivity|]. intros; discriminate.
  - split; [eexists; reflexivity|]. split; [reflexivity|]. intros; discriminate.
Qed.

End Detection.

(** ** The classifier and the profile *)

Section ClassifierTotal.
Import Re Analyzer.
Context (parses_as_number : string -> bool).

Lemma contains_dates_raises (series : list value) :
  _contains_dates series = None <-> series = [].
Proof.
  split.
  - intros E. destruct series as [|v l]; [reflexivity|].
    rewrite contains_dates_closed in E by discriminate. discriminate.
  - intros ->. reflexivity.
Qed.

Lemma detect_column_type_tags (s : Series) :
  exists t,
    _detect_column_type parses_as_number s = Some t
    /\ In t ["empty"; "numeric"; "datetime"; "text"]
    /\ (t = "empty" <-> dropna (values s) = []).
Proof.
  unfold _detect_column_type.
  destruct (dropna (values s)) as [|v l] eqn:Hd.
  - exists "empty". simpl. tauto.
  - cbn [length Nat.eqb].
    destruct (is_numeric_dtype (dtype_of s)).
    { exists "numeric". simpl. split; [reflexivity|]. split; [tauto|].
      split; discriminate. }
    destruct (is_datetime64_any_dtype (dtype_of s)).
    { exists "datetime". simpl. split; [reflexivity|]. split; [tauto|].
      split; discriminate. }
    rewrite contains_dates_closed by discriminate.
    destruct (_ <? _)%nat.
    { exists "datetime". simpl. split; [reflexivity|]. split; [tauto|].
      split; discriminate. }
    destruct (to_numeric_ok parses_as_number (v :: l)).
    { exists "numeric". simpl. split; [reflexivity|]. split; [tauto|].
      split; discriminate. }
    exists "text". simpl. split; [reflexivity|]. split; [tauto|].
    split; discriminate.
Qed.

(** X9. [_contains_dates] raises on the empty series and on no other, and
    [_detect_column_type] never lets that happen: it always returns one of the
    four tags, and it returns [empty] exactly when every cell of the column
    is absent. *)
Theorem detect_column_type_total (s : Series) :
  (forall l, _contains_dates l = None <-> l = [])
  /\ exists t,
       _detect_column_type parses_as_number s = Some t
       /\ In t ["empty"; "numeric"; "datetime"; "text"]
       /\ (t = "empty" <-> dropna (values s) = []).
Proof.
  split; [intros l; apply contains_dates_raises|].
  destruct (detect_column_type_tags s) as (t & Ht & Hin & He). eauto.
Qed.

End ClassifierTotal.

Section Profile.
Import Re Analyzer.
Context (parses_as_number : string -> bool).
Context (nunique : Series -> nat).
Context (numeric_stats text_stats datetime_stats : Series -> list (string * value)).

Lemma filter_isna_dropna (l : list value) :
  (length (dropna l) + length (List.filter isna l) = length l)%nat.
Proof.
  unfold dropna. induction l as [|v l IH]; [reflexivity|].
  cbn [List.filter]. destruct (isna v); cbn [negb length]; lia.
Qed.

Lemma analyze_column_returns (s : Series) :
  exists e,
    _analyze_column parses_as_number nunique numeric_stats text_stats
                    datetime_stats s = Some e
    /\ _detect_column_type parses_as_number s = Some (type e)
    /\ non_null_count e = length (dropna (values s))
    /\ null_count e = length (List.filter isna (values s))
    /\ sample_values e = _get_sample_values s 5.
Proof.
  destruct (detect_column_type_tags parses_as_number s) as (t & Ht & _).
  unfold _analyze_column. rewrite Ht. eexists. split; [reflexivity|].
  repeat split.
Qed.

(** X10. [_analyze_column] always returns an entry. Its two counts add up to
    the length of the column; its samples are the first present cells of the
    column, five at most; and the tag is [empty] exactly when there is no
    sample, which is exactly when the count of present cells is zero. *)
Theorem analyze_column_consistent (s : Series) :
  exists e,
    _analyze_column parses_as_number nunique numeric_stats text_stats
                    datetime_stats s = Some e
    /\ _detect_column_type parses_as_number s = Some (type e)
    /\ (non_null_count e + null_count e = length (values s))%nat
    /\ sample_values e = take 5 (dropna (values s))
    /\ (length (sample_values e) <= 5)%nat
    /\ Forall (fun v => isna v = false) (sample_values e)
    /\ (type e = "empty" <-> sample_values e = [])
    /\ (type e = "empty" <-> non_null_count e = 0%nat).
Proof.
  destruct (analyze_column_returns s) as (e & He & Ht & Hnn & Hnull & Hsam).
  destruct (detect_column_type_tags parses_as_number s) as (t & Ht' & _ & Hempty).
  assert (t = type e) as -> by congruence.
  exists e. split; [exact He|]. split; [exact Ht|].
  assert (_get_sample_values s 5 = take 5 (dropna (values s))) as Hs.
  { unfold _get_sample_values.
    destruct (Nat.eqb_spec (length (dropna (values s))) 0) as [E|_];
      [|apply take_min_length].
    destruct (dropna (values s)); [reflexivity | discriminate]. }
  rewrite Hsam, Hs, Hnn, Hnull.
  split; [apply filter_isna_dropna|].
  split; [reflexivity|]. split; [rewrite length_take; lia|]. split; [|split].
  - apply Forall_forall. intros v Hv. apply elem_of_take in Hv.
    destruct Hv as (i & Hv & _). apply list_elem_of_lookup_2, list_elem_of_In in Hv.
    apply dropna_present in Hv. tauto.
  - rewrite Hempty. destruct (dropna (values s)); split; try discriminate; auto.
  - rewrite Hempty. destruct (dropna (values s)); split; try discriminate; auto.
Qed.

End Profile.

Section TableProfile.
Import Re Analyzer.
Context (parses_as_number : string -> bool).
Context (nunique : Series -> nat).
Context (memory_usage_sum : DataFrame -> N).
Context (numeric_stats text_stats datetime_stats : Series -> list (string * value)).

Local Abbreviation analyze_column :=
  (_analyze_column parses_as_number nunique numeric_stats text_stats datetime_stats).
Local Abbreviation analyze :=
  (analyze_dataframe parses_as_number nunique memory_usage_sum numeric_stats
                     text_stats datetime_stats).

(** The entry [e] is the profile of the column labelled [c]. *)
Local Abbreviation profile_of df :=
  (fun (c : string) (e : string * ColumnInfo) =>
     fst e = c
     /\ exists series, df_get c df = Some series
                       /\ analyze_column series = Some (snd e)).

Lemma dict_set_fresh {V} (key : string) (v : V) (d : list (string * V)) :
  ~ In key (List.map fst d) -> dict_set key v d = d ++ [(key, v)].
Proof.
  induction d as [|[k v0] d IH]; intros Hn; [reflexivity|].
  cbn [dict_set]. simpl in Hn.
  destruct (String.eqb_spec k key) as [->|_]; [tauto|].
  rewrite IH by tauto. reflexivity.
Qed.

Lemma tagged_cons (t : string) (c : string) (e : ColumnInfo)
      (l : list (string * ColumnInfo)) :
  List.map fst (List.filter (fun x => String.eqb (type (snd x)) t) ((c, e) :: l))
  = (if String.eqb (type e) t then [c] else [])
    ++ List.map fst (List.filter (fun x => String.eqb (type (snd x)) t) l).
Proof. cbn [List.filter snd]. destruct (String.eqb (type e) t); reflexivity. Qed.

(** The loop of [analyze_dataframe] over labels of the table that are
    distinct and new to the profile. *)
Lemma analyze_columns_spec (df : DataFrame) (rest : list string) :
  forall a : Analysis,
  NoDup rest ->
  (forall c, In c rest -> has_column c df = true) ->
  (forall c, In c rest -> ~ In c (List.map fst (columns a))) ->
  exists a' new,
    analyze_columns parses_as_number nunique numeric_stats text_stats
                    datetime_stats df rest a = Some a'
    /\ Forall2 (profile_of df) rest new
    /\ columns a' = columns a ++ new
    /\ text_columns a'
       = text_columns a
         ++ List.map fst (List.filter (fun x => String.eqb (type (snd x)) "text") new)
    /\ numeric_columns a'
       = numeric_columns a
         ++ List.map fst (List.filter (fun x => String.eqb (type (snd x)) "numeric") new)
    /\ date_columns a'
       = date_columns a
         ++ List.map fst (List.filter (fun x => String.eqb (type (snd x)) "datetime") new)
    /\ total_rows a' = total_rows a
    /\ total_columns a' = total_columns a
    /\ memory_usage a' = memory_usage a
    /\ total_missing_values a' = total_missing_values a.
Proof.
  induction rest as [|c rest IH]; intros a Hnd Hin Hfresh.
  - exists a, []. cbn. rewrite !app_nil_r. repeat split. constructor.
  - cbn [analyze_columns].
    assert (has_column c df = true) as Hc by (apply Hin; now left).
    unfold has_column in Hc. destruct (df_get c df) as [series|] eqn:Hget;
      [|discriminate].
    destruct (analyze_column_returns parses_as_number nunique numeric_stats
                text_stats datetime_stats series) as (e & He & _).
    rewrite He.
    apply NoDup_cons in Hnd. destruct Hnd as [Hc_rest Hnd].
    destruct (IH (record_column c e a) Hnd) as
        (a' & new & E & Hall & Hcols & Ht & Hn & Hd & Hr & Htc & Hm & Hmv).
    + intros c' Hc'. apply Hin. now right.
    + intros c' Hc'. cbn [record_column columns].
      rewrite dict_set_fresh by (apply Hfresh; now left).
      rewrite map_app, in_app_iff. cbn. intros [Hx|[Hx|[]]].
      * apply (Hfresh c'); [now right | exact Hx].
      * subst c'. apply Hc_rest. now apply list_elem_of_In.
    + exists a', ((c, e) :: new). split; [exact E|].
      split; [constructor; [cbn; eauto | exact Hall]|].
      cbn [record_column columns text_columns numeric_columns date_columns
           total_rows total_columns memory_usage total_missing_values] in *.
      rewrite dict_set_fresh in Hcols by (apply Hfresh; now left).
      rewrite !tagged_cons.
      split; [rewrite Hcols, <- app_assoc; reflexivity|].
      repeat split; auto.
      * rewrite Ht. destruct (String.eqb (type e) "text");
          rewrite <- ?app_assoc; reflexivity.
      * rewrite Hn. destruct (String.eqb_spec (type e) "text") as [Et|_].
        -- rewrite Et. reflexivity.
        -- destruct (String.eqb (type e) "numeric");
             rewrite <- ?app_assoc; reflexivity.
      * rewrite Hd. destruct (String.eqb_spec (type e) "text") as [Et|_].
        -- rewrite Et. reflexivity.
        -- destruct (String.eqb_spec (type e) "numeric") as [En|_].
           ++ rewrite En. reflexivity.
           ++ destruct (String.eqb (type e) "datetime");
                rewrite <- ?app_assoc; reflexivity.
Qed.

Lemma dict_get_profile (df : DataFrame) (labels : list string)
      (new : list (string * ColumnInfo)) (c : string) (series : Series) :
  Forall2 (profile_of df) labels new ->
  In c labels -> df_get c df = Some series ->
  exists e, dict_get c new = Some e /\ analyze_column series = Some e.
Proof.
  induction 1 as [|c0 [k e0] labels new [Hk (s0 & Hs0 & He0)] Hall IH];
    intros Hin Hget; [destruct Hin|].
  cbn in Hk. subst k. cbn [dict_get].
  destruct (String.eqb_spec c0 c) as [->|Hne].
  - exists e0. split; [reflexivity|]. cbn in He0. congruence.
  - destruct Hin as [Hx|Hin]; [contradiction|]. now apply IH.
Qed.

Lemma analyze_dataframe_spec (df : DataFrame) :
  NoDup (column_names df) ->
  exists a,
    analyze df = Some a
    /\ Forall2 (profile_of df) (column_names df) (columns a)
    /\ text_columns a = labels_tagged "text" a
    /\ numeric_columns a = labels_tagged "numeric" a
    /\ date_columns a = labels_tagged "datetime" a
    /\ total_rows a = nrows df
    /\ total_columns a = length (cols df)
    /\ total_missing_values a
       = list_sum (List.map (fun c => length (List.filter isna (values (snd c))))
                            (cols df)).
Proof.
  intros Hnd. unfold analyze_dataframe.
  destruct (analyze_columns_spec df (column_names df)
              {| total_rows := nrows df;
                 total_columns := length (cols df);
                 memory_usage :=
                   _get_memory_usage memory_usage_sum df;
                 columns := [];
                 text_columns := [];
                 numeric_columns := [];
                 date_columns := [];
                 total_missing_values :=
                   list_sum (List.map
                               (fun c => length (List.filter isna (values (snd c))))
                               (cols df)) |})
    as (a & new & E & Hall & Hcols & Ht & Hn & Hd & Hr & Htc & _ & Hmv).
  - exact Hnd.
  - intros c Hc. now apply has_column_In.
  - intros c _ [].
  - cbn in Hcols, Ht, Hn, Hd, Hr, Htc, Hmv. subst new.
    exists a. unfold labels_tagged. repeat split; auto.
Qed.

(** X11. For a table with distinct labels [analyze_dataframe] returns a
    profile. Its dictionary of columns has one entry for every column, in
    the order of the table, and the entry of a column is what
    [_analyze_column] returns for it; the counts of rows and columns are
    those of the table. *)
Theorem analyze_dataframe_profiles (df : DataFrame) :
  NoDup (column_names df) ->
  exists a,
    analyze df = Some a
    /\ List.map fst (columns a) = column_names df
    /\ total_rows a = nrows df
    /\ total_columns a = length (columns a)
    /\ forall c series, df_get c df = Some series ->
         exists e, dict_get c (columns a) = Some e
                   /\ analyze_column series = Some e.
Proof.
  intros Hnd. destruct (analyze_dataframe_spec df Hnd)
    as (a & E & Hall & _ & _ & _ & Hr & Htc & _).
  exists a. split; [exact E|].
  assert (List.map fst (columns a) = column_names df) as Hnames.
  { clear -Hall. induction Hall as [|c e l l' [Hc _] _ IH]; [reflexivity|].
    cbn. now rewrite Hc, IH. }
  split; [exact Hnames|]. split; [exact Hr|]. split.
  - rewrite Htc. rewrite <- (length_map fst (columns a)), Hnames.
    unfold column_names. now rewrite length_map.
  - intros c series Hget. apply (dict_get_profile df (column_names df)); auto.
    apply has_column_In. unfold has_column. now rewrite Hget.
Qed.

Lemma tag_classes (l : list (string * ColumnInfo)) :
  Forall (fun e => In (type (snd e)) ["empty"; "numeric"; "datetime"; "text"]) l ->
  (length l
   = length (List.filter (fun x => String.eqb (type (snd x)) "text") l)
     + length (List.filter (fun x => String.eqb (type (snd x)) "numeric") l)
     + length (List.filter (fun x => String.eqb (type (snd x)) "datetime") l)
     + length (List.filter (fun x => String.eqb (type (snd x)) "empty") l))%nat.
Proof.
  induction 1 as [|e l He _ IH]; [reflexivity|].
  cbn [List.filter length]. cbn in He.
  destruct He as [He|[He|[He|[He|[]]]]]; rewrite <- He; cbn; lia.
Qed.

(** X12. For a table with distinct labels the three lists of the profile are
    the labels whose entries carry the tags [text], [numeric] and
    [datetime], each in the order of the table; with the columns tagged
    [empty], which are in none of the lists, they account for every column
    once. *)
Theorem analyze_dataframe_partition (df : DataFrame) :
  NoDup (column_names df) ->
  exists a,
    analyze df = Some a
    /\ text_columns a = labels_tagged "text" a
    /\ numeric_columns a = labels_tagged "numeric" a
    /\ date_columns a = labels_tagged "datetime" a
    /\ (total_columns a
        = length (text_columns a) + length (numeric_columns a)
          + length (date_columns a) + length (labels_tagged "empty" a))%nat.
Proof.
  intros Hnd. destruct (analyze_dataframe_spec df Hnd)
    as (a & E & Hall & Ht & Hn & Hd & _ & Htc & _).
  exists a. repeat (split; [assumption|]).
  rewrite Ht, Hn, Hd. unfold labels_tagged. rewrite !length_map.
  rewrite <- tag_classes.
  - rewrite Htc. apply Forall2_length in Hall. rewrite <- Hall.
    unfold column_names. now rewrite length_map.
  - clear -Hall. induction Hall as [|c e l l' [_ (s & _ & He)] _ IH]; constructor;
      [|exact IH].
    destruct (detect_column_type_tags parses_as_number s) as (t & Ht & Hin & _).
    unfold _analyze_column in He. rewrite Ht in He. injection He as He.
    rewrite <- He. exact Hin.
Qed.

Lemma assoc_get_NoDup (l : list (string * Series)) (k : string) (s : Series) :
  NoDup (List.map fst l) -> In (k, s) l -> assoc_get k l = Some s.
Proof.
  induction l as [|[k0 s0] l IH]; intros Hnd Hin; [destruct Hin|].
  cbn in Hnd. apply NoDup_cons in Hnd. destruct Hnd as [Hk0 Hnd].
  cbn [assoc_get]. destruct Hin as [Heq|Hin].
  - injection Heq as -> ->. now rewrite String.eqb_refl.
  - destruct (String.eqb_spec k0 k) as [->|_]; [|now apply IH].
    exfalso. apply Hk0. apply list_elem_of_In.
    apply (in_map fst) in Hin. exact Hin.
Qed.

(** X13. For a well-formed table the number of missing values of the profile
    is the sum of the null counts of its entries, and the two counts of every
    entry add up to the number of rows. *)
Theorem analyze_dataframe_missing_values (df : DataFrame) :
  well_formed df ->
  exists a,
    analyze df = Some a
    /\ total_missing_values a
       = list_sum (List.map (fun e => null_count (snd e)) (columns a))
    /\ Forall (fun e => (non_null_count (snd e) + null_count (snd e)
                         = total_rows a)%nat) (columns a).
Proof.
  intros [Hnd Hlen]. destruct (analyze_dataframe_spec df Hnd)
    as (a & E & Hall & _ & _ & _ & Hr & _ & Hmv).
  exists a. split; [exact E|].
  assert (Forall2 (fun c e =>
                     null_count (snd e) = length (List.filter isna (values (snd c)))
                     /\ (non_null_count (snd e) + null_count (snd e)
                         = length (values (snd c)))%nat)
                  (cols df) (columns a)) as Hrel.
  { unfold column_names in Hall. apply Forall2_fmap_l in Hall.
    apply Forall2_same_length_lookup_2; [now apply Forall2_length in Hall|].
    intros i [k s] e Hk He.
    pose proof (Forall2_lookup_lr _ _ _ _ _ _ Hall Hk He) as (_ & s' & Hs' & Ha).
    cbn in Hs'.
    assert (df_get k df = Some s) as Hks.
    { apply assoc_get_NoDup; [exact Hnd|].
      apply list_elem_of_In. now apply list_elem_of_lookup_2 in Hk. }
    assert (s' = s) as -> by congruence.
    destruct (analyze_column_returns parses_as_number nunique numeric_stats
                text_stats datetime_stats s) as (e' & He' & _ & Hnn & Hnull & _).
    assert (snd e = e') as <- by congruence.
    split; [exact Hnull|]. rewrite Hnn, Hnull. apply filter_isna_dropna. }
  split.
  - rewrite Hmv. clear -Hrel. unfold list_sum.
    induction Hrel as [|c e l l' [Hc _] _ IH]; [reflexivity|].
    cbn [List.map fold_right]. now rewrite Hc, IH.
  - rewrite Hr. apply Forall_forall. intros e He.
    apply list_elem_of_lookup_1 in He. destruct He as [i He].
    destruct (Forall2_lookup_r _ _ _ _ _ Hrel He) as (c & Hc & _ & Hsum).
    rewrite Hsum. rewrite Forall_forall in Hlen. apply (Hlen c).
    now apply list_elem_of_lookup_2 in Hc.
Qed.

End TableProfile.

(** ** The report as a list of lines *)

Section ReportLines.
Import Analyzer.

(** X14. The report prints nothing of the type-specific statistics: two
    profiles that differ only in them give the same report, character for
    character. *)
Theorem generate_report_ignores_stats (a b : Analysis) :
  without_stats a = without_stats b ->
  fst (generate_report a) = fst (generate_report b).
Proof.
  intros Hab. rewrite !generate_report_closed. cbn [fst]. f_equal.
  assert (forall x, report_lines x = report_lines (without_stats x)) as Hw.
  { intros x. unfold report_lines. cbn [without_stats total_rows total_columns
      memory_usage total_missing_values text_columns numeric_columns
      date_columns columns].
    do 5 f_equal. rewrite List.map_map. reflexivity. }
  now rewrite (Hw a), (Hw b), Hab.
Qed.

End ReportLines.

(** ** The date patterns *)

Section DatePatterns.
Import Re Analyzer.

Lemma eat_append (k : charset) (n : nat) (s rest post : string) :
  eat k n s = Some rest -> eat k n (s +:+ post) = Some (rest +:+ post).
Proof.
  revert s. induction n as [|n IH]; intros s E.
  - cbn in *. congruence.
  - destruct s as [|c s]; [discriminate|].
    change (String c s +:+ post) with (String c (s +:+ post)).
    cbn [eat] in *.
    destruct (in_charset k c); [now apply IH | discriminate].
Qed.

Lemma match_here_append (p : pattern) (s post : string) :
  match_here p s = true -> match_here p (s +:+ post) = true.
Proof.
  revert s. induction p as [|it p IH]; intros s E; [reflexivity|].
  cbn [match_here] in *. apply existsb_exists in E. destruct E as (n & Hn & E).
  apply existsb_exists. exists n. split; [exact Hn|].
  destruct (eat (set_of it) n s) as [rest|] eqn:Ee; [|discriminate].
  rewrite (eat_append _ _ _ _ post Ee). now apply IH.
Qed.

Lemma search_append (p : pattern) (s post : string) :
  search p s = true -> search p (s +:+ post) = true.
Proof.
  induction s as [|c s IH]; intros E.
  - cbn [search] in E. rewrite orb_false_r in E.
    apply search_here. now apply (match_here_append p "" post).
  - cbn [search] in E. apply orb_true_iff in E.
    change (String c s +:+ post) with (String c (s +:+ post)). cbn [search].
    apply orb_true_iff. destruct E as [E|E].
    + left. now apply (match_here_append p (String c s) post).
    + right. now apply IH.
Qed.

Lemma search_prepend (p : pattern) (pre s : string) :
  search p s = true -> search p (pre +:+ s) = true.
Proof.
  intros E. induction pre as [|c pre IH]; [exact E|].
  change (String c pre +:+ s) with (String c (pre +:+ s)). cbn [search].
  rewrite IH. apply orb_true_r.
Qed.

(** X15. The date test looks for a date anywhere in a text: a text that
    contains a date-shaped text is date-shaped, whatever stands before and
    after it. *)
Theorem date_shaped_inside (pre text post : string) :
  date_shaped text = true -> date_shaped (pre +:+ text +:+ post) = true.
Proof.
  unfold date_shaped. intros E. apply existsb_exists in E.
  destruct E as (p & Hp & E). apply existsb_exists. exists p.
  split; [exact Hp|]. apply search_prepend. now apply search_append.
Qed.

Lemma match_here_widens (p q : pattern) :
  Forall2 widens p q ->
  forall s, match_here p s = true -> match_here q s = true.
Proof.
  induction 1 as [|it it' p q (Hset & Hlo & Hhi) _ IH]; intros s E; [reflexivity|].
  cbn [match_here] in *. apply existsb_exists in E. destruct E as (n & Hn & E).
  apply existsb_exists. exists n. split.
  - apply in_rev in Hn. apply in_seq in Hn.
    apply in_rev. rewrite rev_involutive. apply in_seq. lia.
  - rewrite Hset. destruct (eat (set_of it) n s); [now apply IH | discriminate].
Qed.

Lemma search_widens (p q : pattern) (s : string) :
  Forall2 widens p q -> search p s = true -> search q s = true.
Proof.
  intros Hw. induction s as [|c s IH]; cbn [search]; intros E.
  - rewrite orb_false_r in *. now apply (match_here_widens p q Hw).
  - apply orb_true_iff in E. apply orb_true_iff. destruct E as [E|E].
    + left. now apply (match_here_widens p q Hw).
    + right. now apply IH.
Qed.

(** X16. The second date pattern never decides: every text it matches is
    matched by the third, so a text is date-shaped exactly when the first or
    the third pattern matches it. *)
Theorem second_pattern_redundant (text : string) :
  date_shaped text
  = search [Item Digit 4 4; Item DashSlash 1 1; Item Digit 2 2;
            Item DashSlash 1 1; Item Digit 2 2] text
    || search [Item Digit 1 2; Item DashSlash 1 1; Item Digit 1 2;
               Item DashSlash 1 1; Item Digit 4 4] text.
Proof.
  unfold date_shaped, date_patterns. cbn [existsb]. rewrite orb_false_r.
  destruct (search [Item Digit 2 2; Item DashSlash 1 1; Item Digit 2 2;
                    Item DashSlash 1 1; Item Digit 4 4] text) eqn:E2;
    [|reflexivity].
  rewrite (search_widens
             [Item Digit 2 2; Item DashSlash 1 1; Item Digit 2 2;
              Item DashSlash 1 1; Item Digit 4 4]
             [Item Digit 1 2; Item DashSlash 1 1; Item Digit 1 2;
              Item DashSlash 1 1; Item Digit 4 4] text);
    [now rewrite !orb_true_r | | exact E2].
  repeat (constructor;
          [unfold widens; cbn; repeat split; try reflexivity; lia|]).
  constructor.
Qed.

End DatePatterns.

(** ** The charts *)

Section Charts.
Import Visualizer.
Context {Matrix Num Trace : Type}.
Context (corr : DataFrame -> string + Matrix).
Context (imshow : Matrix -> string + list Trace).
Context (to_numeric : value -> option Num).
Context (draw_histogram : list Num -> nat -> string -> string + Figure Trace).
Context (astype_str : Series -> list string).
Context (draw_text_lengths : list nat -> nat -> string -> string + Figure Trace).




End Charts.

(** ** The card view *)

Section Cards.
Import App.

Lemma endswith_append (s suffix : string) : endswith suffix (s +:+ suffix) = true.
Proof.
  induction s as [|c s IH].
  - change ("" +:+ suffix) with suffix.
    destruct suffix; cbn [endswith]; now rewrite String.eqb_refl.
  - change (String c s +:+ suffix) with (String c (s +:+ suffix)).
    cbn [endswith]. rewrite IH. apply orb_true_r.
Qed.

Lemma existsb_eqb_In (col : string) (l : list string) :
  existsb (String.eqb col) l = true <-> In col l.
Proof.
  rewrite existsb_exists. split.
  - intros (x & Hx & E). apply String.eqb_eq in E. now subst.
  - intros Hin. exists col. split; [exact Hin | apply String.eqb_refl].
Qed.

Lemma filter_complement {A} (f : A -> bool) (l : list A) :
  Permutation (List.filter f l ++ List.filter (fun x => negb (f x)) l) l.
Proof.
  induction l as [|x l IH]; [reflexivity|].
  cbn [List.filter]. destruct (f x); cbn [negb app].
  - now constructor.
  - rewrite <- Permutation_middle. now constructor.
Qed.

(** X20. The cards show every label of the table that does not end in
    "_original", once for each time it occurs in the table, and no other
    label; the labels that name a time come first. *)
Theorem ordered_cols_permutation (columns : list string) :
  Permutation (ordered_cols columns)
              (List.filter (fun col => negb (endswith "_original" col)) columns)
  /\ exists times others,
       ordered_cols columns = times ++ others
       /\ Forall (fun col => is_timestamp_label col = true) times
       /\ Forall (fun col => is_timestamp_label col = false) others.
Proof.
  unfold ordered_cols.
  set (all_cols := List.filter (fun col => negb (endswith "_original" col)) columns).
  assert (List.filter
            (fun col => negb (existsb (String.eqb col)
                                      (List.filter is_timestamp_label all_cols)))
            all_cols
          = List.filter (fun col => negb (is_timestamp_label col)) all_cols) as Ht.
  { apply filter_ext_in. intros col Hcol. f_equal.
    destruct (is_timestamp_label col) eqn:E.
    - apply existsb_eqb_In. apply filter_In. auto.
    - destruct (existsb _ _) eqn:Ex; [|reflexivity].
      apply existsb_eqb_In, filter_In in Ex. destruct Ex. congruence. }
  rewrite Ht. split; [apply filter_complement|].
  eexists _, _. split; [reflexivity|]. split.
  - apply Forall_forall. intros x Hx. apply list_elem_of_In, filter_In in Hx. tauto.
  - apply Forall_forall. intros x Hx. apply list_elem_of_In, filter_In in Hx.
    destruct Hx as [_ Hx]. now apply negb_true_iff in Hx.
Qed.

Lemma filter_none {A} (f : A -> bool) (l : list A) :
  Forall (fun x => f x = false) l -> List.filter f l = [].
Proof.
  induction 1 as [|x l Hx _ IH]; [reflexivity|]. cbn. now rewrite Hx.
Qed.

(** X21. Translation does not change what the cards show: the labels shown
    for the table [translate_dataframe] returns are those shown for the
    table it was given, in the same order. *)
Theorem cards_hide_originals {S : Type} `{TranslationService S}
        (df : DataFrame) (columns : list string) (target : string) (w : world S) :
  exists df' w',
    Translator.translate_dataframe df columns target w = (inr df', w')
    /\ ordered_cols (column_names df') = ordered_cols (column_names df).
Proof.
  destruct (translate_dataframe_adds_labels df columns target w)
    as (df' & w' & added & E & Hn & Hadded).
  exists df', w'. split; [exact E|]. unfold ordered_cols. rewrite Hn.
  rewrite List.filter_app.
  rewrite (filter_none (fun col => negb (endswith "_original" col)) added).
  - now rewrite app_nil_r.
  - eapply Forall_impl; [exact Hadded|]. intros a (c & _ & _ & ->).
    cbn beta. now rewrite endswith_append.
Qed.

(** X22. The test of the cards and the test of the translator for a label
    that looks like a question are not the same test. A label the translator
    translates is shown as a question when it was matched by other needles
    than the inverted question mark and the accented "estas" and "como"; the
    label made of the accented "como" alone is translated and is not shown as
    a question. *)
Theorem question_tests_differ (col : string) :
  (Translator.is_question_label col = true ->
   contains (chr 191) col = false ->
   contains ("est" +:+ chr 225 +:+ "s") (lower col) = false ->
   contains ("c" +:+ chr 243 +:+ "mo") (lower col) = false ->
   shown_as_question col = true)
  /\ Translator.is_question_label ("c" +:+ chr 243 +:+ "mo") = true
  /\ shown_as_question ("c" +:+ chr 243 +:+ "mo") = false.
Proof.
  split; [|split; reflexivity].
  unfold Translator.is_question_label, shown_as_question. cbv zeta.
  intros Hq H1 H2 H3. rewrite H1, H2, H3 in Hq.
  destruct (contains "?" col), (contains "texto" (lower col)),
    (contains "text" (lower col)), (contains "translated" (lower col)),
    (contains "mango" (lower col)), (contains "estas" (lower col)),
    (contains "algo" (lower col)), (contains "favor" (lower col)),
    (contains "por favor" (lower col)), (contains "como" (lower col));
    cbn in *; rewrite ?orb_true_r; try reflexivity; discriminate.
Qed.

End Cards.

(** ** Lists of the profile and marks of the translator *)

Section ListsSound.
Import Analyzer.
Context (parses_as_number : string -> bool).
Context (nunique : Series -> nat).
Context (memory_usage_sum : DataFrame -> N).
Context (numeric_stats text_stats datetime_stats : Series -> list (string * value)).

Lemma dict_get_In {V} (key : string) (v : V) (d : list (string * V)) :
  dict_get key d = Some v -> In (key, v) d.
Proof.
  induction d as [|[k v0] d IH]; [discriminate|]. cbn [dict_get].
  destruct (String.eqb_spec k key) as [->|_].
  - intros [= ->]. now left.
  - intros E. right. now apply IH.
Qed.

(** X23. For a table with distinct labels, a label is in the list of text
    columns of the profile exactly when it is the label of a column that the
    classifier tags [text]; the same holds of the numeric list and the tag
    [numeric], and of the date list and the tag [datetime]. *)
Theorem analyze_dataframe_lists_sound (df : DataFrame) (c : string) :
  NoDup (column_names df) ->
  exists a,
    analyze_dataframe parses_as_number nunique memory_usage_sum numeric_stats
                      text_stats datetime_stats df = Some a
    /\ (In c (text_columns a)
        <-> exists series, df_get c df = Some series
            /\ _detect_column_type parses_as_number series = Some "text")
    /\ (In c (numeric_columns a)
        <-> exists series, df_get c df = Some series
            /\ _detect_column_type parses_as_number series = Some "numeric")
    /\ (In c (date_columns a)
        <-> exists series, df_get c df = Some series
            /\ _detect_column_type parses_as_number series = Some "datetime").
Proof.
  intros Hnd.
  destruct (analyze_dataframe_spec parses_as_number nunique memory_usage_sum
              numeric_stats text_stats datetime_stats df Hnd)
    as (a & E & Hall & Ht & Hn & Hd & _).
  exists a. split; [exact E|].
  assert (forall t, In c (labels_tagged t a)
                    <-> exists series, df_get c df = Some series
                        /\ _detect_column_type parses_as_number series = Some t)
    as Htag.
  { intros t. unfold labels_tagged. rewrite in_map_iff. split.
    - intros ([c' e] & Hc & Hin). cbn in Hc. subst c'.
      apply filter_In in Hin. destruct Hin as [Hin Hte]. cbn in Hte.
      apply String.eqb_eq in Hte.
      apply (proj2 (list_elem_of_In _ _)) in Hin.
      apply list_elem_of_lookup_1 in Hin. destruct Hin as [i Hi].
      destruct (Forall2_lookup_r _ _ _ _ _ Hall Hi) as (c' & _ & Hc' & series & Hs & He).
      cbn in Hc', He. subst c'. exists series. split; [exact Hs|].
      destruct (analyze_column_returns parses_as_number nunique numeric_stats
                  text_stats datetime_stats series) as (e' & He' & Hty & _).
      assert (e' = e) as -> by congruence. congruence.
    - intros (series & Hs & Hty).
      destruct (dict_get_profile parses_as_number nunique numeric_stats text_stats
                  datetime_stats df (column_names df) (columns a) c series Hall)
        as (e & Hget & He); [|exact Hs|].
      { apply has_column_In. unfold has_column. now rewrite Hs. }
      exists (c, e). split; [reflexivity|]. apply filter_In.
      split; [now apply dict_get_In|]. cbn. apply String.eqb_eq.
      destruct (analyze_column_returns parses_as_number nunique numeric_stats
                  text_stats datetime_stats series) as (e' & He' & Hty' & _).
      assert (e' = e) as -> by congruence. congruence. }
  rewrite Ht, Hn, Hd. repeat split; apply Htag.
Qed.

End ListsSound.

Section Marks.
Import Translator.

Lemma rstrip_append (a t : string) :
  rstrip t <> "" -> rstrip (a +:+ t) = a +:+ rstrip t.
Proof.
  intros Hne. induction a as [|c a IH]; [reflexivity|].
  change (String c a +:+ t) with (String c (a +:+ t)).
  cbn [rstrip]. rewrite IH.
  change (String c a +:+ rstrip t) with (String c (a +:+ rstrip t)).
  destruct (a +:+ rstrip t) eqn:E; [|reflexivity].
  exfalso. apply Hne. destruct a; [exact E | discriminate].
Qed.

Lemma rstrip_idempotent (s : string) : rstrip (rstrip s) = rstrip s.
Proof.
  induction s as [|c s IH]; [reflexivity|]. cbn [rstrip].
  destruct (rstrip s) as [|c' r] eqn:E.
  - destruct (isspace c) eqn:Hc; [reflexivity|]. cbn [rstrip]. now rewrite Hc.
  - cbn [rstrip]. cbn [rstrip] in IH. rewrite IH. reflexivity.
Qed.

(** The stripped text behind the marker is a text that strips to itself. *)
Lemma strip_marker (t : string) :
  rstrip t = t -> t <> "" ->
  strip ("[Translation unavailable] " +:+ t) = "[Translation unavailable] " +:+ t.
Proof.
  intros Ht Hne. unfold strip.
  change (lstrip ("[Translation unavailable] " +:+ t))
    with ("[Translation unavailable] " +:+ t).
  rewrite rstrip_append; rewrite Ht; [reflexivity | exact Hne].
Qed.

(** X24. Marking is not idempotent: a cell that does not pass through gets a
    second marker when the marked cell is marked again, as happens when a
    table translated without the service is translated again without it. A
    cell that passes through stays itself. *)
Theorem marked_twice (v : value) :
  marked (marked v)
  = if passes_through v then v
    else VStr ("[Translation unavailable] "
               +:+ "[Translation unavailable] " +:+ strip (str v)).
Proof.
  unfold marked at 2. destruct (passes_through v) eqn:Hp.
  - unfold marked. now rewrite Hp.
  - destruct (passes_through_false v Hp) as (_ & _ & Hl).
    set (t := strip (str v)) in *.
    assert (rstrip t = t) as Hr by (unfold t, strip; apply rstrip_idempotent).
    assert (t <> "") as Hne by (intros E; rewrite E in Hl; cbn in Hl; lia).
    unfold marked, passes_through. cbn [truthy isna str negb orb].
    rewrite (strip_marker t Hr Hne). rewrite length_append.
    cbn [String.length String.eqb Ascii.eqb Bool.eqb]. reflexivity.
Qed.

End Marks.

(** ** The further properties on the sample tables *)

Lemma translate_dataframe_keeps_passing_cells_witness :
  exists df' w' cur,
    Translator.translate_dataframe Samples.survey ["n"] "es" Samples.ready
    = (inr df', w')
    /\ df_get "n" df' = Some cur
    /\ Forall2 (fun v o => Translator.passes_through v = true -> o = v)
               [VInt 1; VInt 2] (values cur).
Proof.
  apply (translate_dataframe_keeps_passing_cells Samples.survey ["n"] "es"
           Samples.ready "n" {| dtype_of := DInt64; values := [VInt 1; VInt 2] |}).
  reflexivity.
Defined.

Lemma translate_dataframe_unavailable_witness :
  exists df' w' cur,
    Translator.translate_dataframe Samples.survey ["q"] "es" Samples.not_initialised
    = (inr df', w')
    /\ translator w' = None
    /\ df_get "q" df' = Some cur
    /\ values cur = [VStr "[Translation unavailable] hola";
                     VStr "[Translation unavailable] adios"].
Proof.
  apply (translate_dataframe_unavailable Samples.survey ["q"] "es"
           Samples.not_initialised "q"
           (Samples.text_column [VStr "hola"; VStr "adios"]));
    [reflexivity | simpl; auto | reflexivity].
Defined.

Lemma translate_dataframe_records_labels_witness :
  exists df' w' recorded,
    Translator.translate_dataframe Samples.survey ["q"] "es" Samples.ready
    = (inr df', w')
    /\ session_column_translations w' = Some recorded.
Proof.
  destruct (translate_dataframe_records_labels Samples.survey ["q"] "es"
              Samples.ready) as (df' & w' & recorded & E & Hs & _);
    [discriminate|].
  exists df', w', recorded. auto.
Defined.

Lemma batch_translate_sequential_witness :
  Translator.batch_translate [VStr "hola"; VStr "adios"; VStr "boom"] "es" 2
                             Samples.ready
  = Translator.translate_batch [VStr "hola"; VStr "adios"; VStr "boom"] "es"
                               Samples.ready.
Proof.
  apply (batch_translate_sequential [VStr "hola"; VStr "adios"; VStr "boom"] "es" 2
           Samples.ready).
  lia.
Defined.

Lemma batch_translate_no_batches_witness :
  Translator.batch_translate [VStr "hola"] "es" (-1) Samples.ready
  = (inr [], Samples.ready).
Proof.
  apply (batch_translate_no_batches [VStr "hola"] "es" (-1) Samples.ready);
    [discriminate | lia].
Defined.

Lemma detect_language_unknown_witness :
  Translator.detect_language (VStr "  ") Samples.ready = (inr "unknown", Samples.ready)
  /\ fst (Translator.detect_language (VStr "boom") Samples.ready) = inr "unknown".
Proof.
  split.
  - apply (detect_language_unknown (VStr "  ") Samples.ready).
    right. left. reflexivity.
  - apply (detect_language_unknown (VStr "boom") Samples.ready) with
      (c := 0%nat) (e := "ConnectionError") (c' := 1%nat);
      [reflexivity | discriminate | reflexivity | reflexivity | reflexivity].
Defined.

Lemma analyze_dataframe_profiles_witness :
  exists a,
    Analyzer.analyze_dataframe Samples.decimal Samples.count_cells
      Samples.two_kilobytes Samples.no_stats Samples.no_stats Samples.no_stats
      Samples.survey = Some a
    /\ List.map fst (Analyzer.columns a) = ["q"; "q_original"; "n"].
Proof.
  destruct (analyze_dataframe_profiles Samples.decimal Samples.count_cells
              Samples.two_kilobytes Samples.no_stats Samples.no_stats
              Samples.no_stats Samples.survey (proj1 survey_well_formed))
    as (a & E & Hn & _).
  exists a. auto.
Defined.

Lemma analyze_dataframe_partition_witness :
  exists a,
    Analyzer.analyze_dataframe Samples.decimal Samples.count_cells
      Samples.two_kilobytes Samples.no_stats Samples.no_stats Samples.no_stats
      Samples.survey = Some a
    /\ Analyzer.text_columns a = Analyzer.labels_tagged "text" a.
Proof.
  destruct (analyze_dataframe_partition Samples.decimal Samples.count_cells
              Samples.two_kilobytes Samples.no_stats Samples.no_stats
              Samples.no_stats Samples.survey (proj1 survey_well_formed))
    as (a & E & Ht & _).
  exists a. auto.
Defined.

Lemma analyze_dataframe_missing_values_witness :
  exists a,
    Analyzer.analyze_dataframe Samples.decimal Samples.count_cells
      Samples.two_kilobytes Samples.no_stats Samples.no_stats Samples.no_stats
      Samples.survey = Some a
    /\ Analyzer.total_missing_values a
       = list_sum (List.map (fun e => Analyzer.null_count (snd e))
                            (Analyzer.columns a)).
Proof.
  destruct (analyze_dataframe_missing_values Samples.decimal Samples.count_cells
              Samples.two_kilobytes Samples.no_stats Samples.no_stats
              Samples.no_stats Samples.survey survey_well_formed)
    as (a & E & Hm & _).
  exists a. auto.
Defined.

Lemma analyze_dataframe_lists_sound_witness :
  exists a,
    Analyzer.analyze_dataframe Samples.decimal Samples.count_cells
      Samples.two_kilobytes Samples.no_stats Samples.no_stats Samples.no_stats
      Samples.survey = Some a
    /\ In "q" (Analyzer.text_columns a).
Proof.
  destruct (analyze_dataframe_lists_sound Samples.decimal Samples.count_cells
              Samples.two_kilobytes Samples.no_stats Samples.no_stats
              Samples.no_stats Samples.survey "q" (proj1 survey_well_formed))
    as (a & E & Ht & _).
  exists a. split; [exact E|]. apply Ht.
  exists (Samples.text_column [VStr "hola"; VStr "adios"]). split; reflexivity.
Defined.

Lemma generate_report_ignores_stats_witness :
  fst (Analyzer.generate_report (Samples.profile_with []))
  = fst (Analyzer.generate_report (Samples.profile_with [("min_value", VInt 1)])).
Proof.
  apply (generate_report_ignores_stats (Samples.profile_with [])
           (Samples.profile_with [("min_value", VInt 1)])).
  reflexivity.
Defined.

Lemma date_shaped_inside_witness :
  Analyzer.date_shaped ("paid on " +:+ "2021-03-01" +:+ ", thanks") = true.
Proof.
  apply (date_shaped_inside "paid on " "2021-03-01" ", thanks"). reflexivity.
Defined.



Lemma question_tests_differ_witness :
  App.shown_as_question "Algo mas?" = true.
Proof.
  apply (question_tests_differ "Algo mas?"); reflexivity.
Defined.
